(** * Multi_Agent_Dev: a shallow embedding of the agents and their gateways

    The development follows the Python sources:
    - [shared/mcp_base.py]   the dispatch envelope ([MCPAgent]);
    - [shared/llm_client.py] the LLM gateway ([LLMClient]);
    - [shared/jira.py]       the ticket-tracker gateway ([JiraClient]);
    - [shared/models.py]     [ReasoningStep];
    - [agents/*/agent.py]    the tool handlers.

    Python strings are sequences of Unicode code points, exceptions are
    values of an error monad, and the outside world (clock, network) is an
    explicit state threaded through every call.  What the Python runtime and
    the libraries decide (Unicode tables, [hash], [round], the answers of the
    network) is gathered in the record [Runtime], over which the program and
    its properties are stated. *)

From Stdlib Require Import Floats Uint63.
From Stdlib Require Import String Ascii.
From Stdlib Require Import Numbers.DecimalString.
From Stdlib Require Import List NArith ZArith Bool Lia.
Import ListNotations.

Set Implicit Arguments.

(** ** Python strings *)

Module PyStr.

(** A [str] is a sequence of code points. *)
Definition pystr := list N.

Fixpoint eqb (a b : pystr) : bool :=
  match a, b with
  | [], [] => true
  | x :: a', y :: b' => (x =? y)%N && eqb a' b'
  | _, _ => false
  end.

(** Decoding of the UTF-8 bytes of a literal of this file into code points:
    literals are written as in the Python source. *)
Definition cont (b : N) : N := N.land b 63.

Fixpoint utf8_decode (bs : list N) : pystr :=
  match bs with
  | [] => []
  | b0 :: r0 =>
    if (b0 <? 128)%N then b0 :: utf8_decode r0
    else match r0 with
    | [] => [b0]
    | b1 :: r1 =>
      if (b0 <? 224)%N then (N.land b0 31 * 64 + cont b1)%N :: utf8_decode r1
      else match r1 with
      | [] => [b0; b1]
      | b2 :: r2 =>
        if (b0 <? 240)%N
        then (N.land b0 15 * 4096 + cont b1 * 64 + cont b2)%N :: utf8_decode r2
        else match r2 with
        | [] => [b0; b1; b2]
        | b3 :: r3 =>
          (N.land b0 7 * 262144 + cont b1 * 4096 + cont b2 * 64 + cont b3)%N
            :: utf8_decode r3
        end
      end
    end
  end.

Definition lit (s : string) : pystr :=
  utf8_decode (map N_of_ascii (list_ascii_of_string s)).
Arguments lit s%_string.

(** [a.startswith(p)] *)
Fixpoint startswith (p s : pystr) : bool :=
  match p, s with
  | [], _ => true
  | _ :: _, [] => false
  | a :: p', b :: s' => (a =? b)%N && startswith p' s'
  end.

(** [s.startswith((p1, p2, ...))] *)
Definition startswith_any (ps : list pystr) (s : pystr) : bool :=
  existsb (fun p => startswith p s) ps.

(** [sub in s] *)
Fixpoint contains (sub s : pystr) : bool :=
  startswith sub s ||
  match s with
  | [] => false
  | _ :: t => contains sub t
  end.

(** [s.replace(old, new)]: the occurrences of [old] are found from left to
    right and do not overlap; [skip] counts the characters of the occurrence
    that is being passed over. *)
Fixpoint replace_go (old new : pystr) (skip : nat) (s : pystr) : pystr :=
  match s with
  | [] => []
  | c :: t =>
    match skip with
    | S k => replace_go old new k t
    | O =>
      if startswith old s
      then new ++ replace_go old new (Nat.pred (length old)) t
      else c :: replace_go old new 0 t
    end
  end.

Definition replace (old new s : pystr) : pystr :=
  match old with
  | [] => new ++ flat_map (fun c => c :: new) s
  | _ :: _ => replace_go old new 0 s
  end.

(** [s.split(sep)] for a non-empty separator. *)
Fixpoint split_go (sep : pystr) (skip : nat) (cur : pystr) (s : pystr)
  : list pystr :=
  match s with
  | [] => [rev cur]
  | c :: t =>
    match skip with
    | S k => split_go sep k cur t
    | O =>
      if startswith sep s
      then rev cur :: split_go sep (Nat.pred (length sep)) [] t
      else split_go sep 0 (c :: cur) t
    end
  end.

Definition split (sep s : pystr) : list pystr := split_go sep 0 [] s.

(** [sep.join(l)] *)
Fixpoint join (sep : pystr) (l : list pystr) : pystr :=
  match l with
  | [] => []
  | [x] => x
  | x :: r => x ++ sep ++ join sep r
  end.

(** [str.isspace] on one code point: the characters that [strip()] removes. *)
Definition isspace (c : N) : bool :=
  ((9 <=? c) && (c <=? 13) || (28 <=? c) && (c <=? 32) || (c =? 133)
   || (c =? 160) || (c =? 5760) || (8192 <=? c) && (c <=? 8202)
   || (c =? 8232) || (c =? 8233) || (c =? 8239) || (c =? 8287)
   || (c =? 12288))%N.

Fixpoint dropwhile (f : N -> bool) (s : pystr) : pystr :=
  match s with
  | [] => []
  | c :: t => if f c then dropwhile f t else s
  end.

Definition mem (c : N) (chars : pystr) : bool := existsb (N.eqb c) chars.

(** [s.lstrip(chars)], [s.rstrip(chars)], [s.lstrip()], [s.rstrip()],
    [s.strip()] *)
Definition lstrip_chars (chars s : pystr) : pystr :=
  dropwhile (fun c => mem c chars) s.

Definition rstrip_chars (chars s : pystr) : pystr :=
  rev (dropwhile (fun c => mem c chars) (rev s)).

Definition lstrip (s : pystr) : pystr := dropwhile isspace s.
Definition rstrip (s : pystr) : pystr := rev (dropwhile isspace (rev s)).
Definition strip (s : pystr) : pystr := rstrip (lstrip s).

(** [s[:n]] *)
Definition slice_to {A} (n : nat) (l : list A) : list A := firstn n l.

(** [str(n)] for an integer. *)
Definition str_of_Z (z : Z) : pystr :=
  lit (NilZero.string_of_int (Z.to_int z)).

Definition str_of_nat (n : nat) : pystr := str_of_Z (Z.of_nat n).

(** Zero-padded decimal of width [w], as [%02d], [%04d], [%06d]. *)
Definition zpad (w : nat) (n : N) : pystr :=
  let d := str_of_Z (Z.of_N n) in
  repeat 48%N (w - length d) ++ d.

(** [str.lower].  CPython lowers a string code point by code point with the
    full lower-case mapping of the Unicode database, except for the capital
    sigma (U+03A3), which becomes the final or the medial small sigma after
    its context.  The database is not part of the repository: the mapping
    and the final-sigma test are parameters. *)
Section Lower.
Variable to_lower_full : N -> pystr.
Variable final_sigma : pystr -> pystr -> bool.

Fixpoint lower_go (before : pystr) (s : pystr) : pystr :=
  match s with
  | [] => []
  | c :: t =>
    (if (c =? 931)%N
     then [if final_sigma before t then 962%N else 963%N]
     else to_lower_full c) ++ lower_go (c :: before) t
  end.

Definition lower (s : pystr) : pystr := lower_go [] s.
End Lower.

(** The ASCII part of the lower-case mapping. *)
Definition ascii_lower (c : N) : N :=
  if ((65 <=? c) && (c <=? 90))%N then (c + 32)%N else c.

Definition is_ascii (c : N) : bool := (c <? 128)%N.

End PyStr.

Import PyStr.

(** ** Python values, exceptions and the outside world *)

(** The values that travel as JSON or sit in the payload dictionaries.  A
    [dict] is an association list in insertion order. *)
#[warnings="-register-all"] Inductive pyval :=
| PNone
| PBool (b : bool)
| PInt (z : Z)
| PFloat (f : float)
| PStr (s : pystr)
| PList (l : list pyval)
| PDict (d : list (pystr * pyval)).

Definition pydict := list (pystr * pyval).

Section Dict.
Variable V : Type.

(** [k in d], [d.get(k)], [d[k] = v], [list(d.keys())] *)
Fixpoint dict_get (k : pystr) (d : list (pystr * V)) : option V :=
  match d with
  | [] => None
  | (k', v) :: r => if PyStr.eqb k k' then Some v else dict_get k r
  end.

Definition dict_mem (k : pystr) (d : list (pystr * V)) : bool :=
  match dict_get k d with Some _ => true | None => false end.

Fixpoint dict_set (k : pystr) (v : V) (d : list (pystr * V))
  : list (pystr * V) :=
  match d with
  | [] => [(k, v)]
  | (k', v') :: r =>
    if PyStr.eqb k k' then (k', v) :: r else (k', v') :: dict_set k v r
  end.

Definition dict_keys (d : list (pystr * V)) : list pystr := map fst d.
End Dict.

Definition type_name (v : pyval) : pystr :=
  match v with
  | PNone => lit "NoneType"
  | PBool _ => lit "bool"
  | PInt _ => lit "int"
  | PFloat _ => lit "float"
  | PStr _ => lit "str"
  | PList _ => lit "list"
  | PDict _ => lit "dict"
  end.

(** Truth value of a string or of an optional string ([not s]). *)
Definition truthy_str (s : pystr) : bool :=
  match s with [] => false | _ => true end.

Definition truthy_opt (o : option pystr) : bool :=
  match o with None => false | Some s => truthy_str s end.

(** An HTTP response as the handlers see it: the status line and the body. *)
Record Response := mkResponse {
  status_code : Z;
  text : pystr
}.

(** Exception classes, as far as the [except] clauses of the code tell them
    apart. *)
Inductive exc_class :=
| HTTPStatusError (resp : Response)
| TypeError
| JSONDecodeError
| ValidationError
| OtherException (name : pystr)
| NonException (name : pystr).

(** An exception: its class and [str(e)]. *)
Record exn := mkExn {
  exn_class : exc_class;
  exn_str : pystr
}.

(** [isinstance(e, Exception)]: everything but the few classes that derive
    from [BaseException] directly (cancellation, keyboard interrupt, exit). *)
Definition is_exception (e : exn) : bool :=
  match exn_class e with
  | NonException _ => false
  | _ => true
  end.

Definition is_type_error (e : exn) : bool :=
  match exn_class e with TypeError => true | _ => false end.

Definition attribute_error (v : pyval) (attr : string) : exn :=
  mkExn (OtherException (lit "AttributeError"))
        (lit "'" ++ type_name v ++ lit "' object has no attribute '"
             ++ lit attr ++ lit "'").

Definition key_error (k : pystr) : exn :=
  mkExn (OtherException (lit "KeyError")) (lit "'" ++ k ++ lit "'").

Definition index_error (what : string) : exn :=
  mkExn (OtherException (lit "IndexError")) (lit what ++ lit " index out of range").

Definition type_error (msg : pystr) : exn := mkExn TypeError msg.

Record datetime := mkDatetime {
  dt_year : N; dt_month : N; dt_day : N;
  dt_hour : N; dt_minute : N; dt_second : N; dt_microsecond : N
}.

(** [d.strftime("%Y-%m-%d")] *)
Definition strftime_Ymd (d : datetime) : pystr :=
  zpad 4 (dt_year d) ++ lit "-" ++ zpad 2 (dt_month d) ++ lit "-"
    ++ zpad 2 (dt_day d).

(** [d.isoformat()] *)
Definition isoformat (d : datetime) : pystr :=
  strftime_Ymd d ++ lit "T" ++ zpad 2 (dt_hour d) ++ lit ":"
    ++ zpad 2 (dt_minute d) ++ lit ":" ++ zpad 2 (dt_second d)
    ++ (if (dt_microsecond d =? 0)%N then []
        else lit "." ++ zpad 6 (dt_microsecond d)).

(** One request handed to [httpx]. *)
Inductive http_verb := GET | POST.

Record HttpCall := mkHttpCall {
  call_verb : http_verb;
  call_url : pystr;
  call_timeout : N;
  call_auth : option (pystr * pystr);
  call_headers : pydict;
  call_json : option pyval;
  call_params : option pydict
}.

Inductive Res (A : Type) :=
| Ok (a : A)
| Raise (e : exn).
Arguments Ok {A} a.
Arguments Raise {A} e.

(** [MCPRequest] (shared/mcp_base.py) *)
Record MCPRequest := mkRequest {
  method : pystr;
  params : pydict;
  req_id : option Z
}.

(** What lies outside the repository: the Python runtime, the libraries
    ([httpx], [json], [pydantic]) and the machines at the other end. *)
Record Runtime := mkRuntime {
  (** Unicode database: full lower-case mapping and the final-sigma test. *)
  rt_to_lower_full : N -> pystr;
  rt_final_sigma : pystr -> pystr -> bool;
  (** [hash] on strings. *)
  rt_hash : pystr -> Z;
  (** [round(x, ndigits)] *)
  rt_round : float -> Z -> float;
  (** [str(v)], as an f-string renders a value. *)
  rt_str : pyval -> pystr;
  (** The bytes of a request body decoded as UTF-8, read by [json.loads],
      and validated by the constructor of [MCPRequest]. *)
  rt_parse_request : list N -> Res MCPRequest;
  (** The n-th reading of the system clock in UTC. *)
  rt_utcnow : nat -> datetime;
  (** The outcome of a request, given the requests sent before it. *)
  rt_http : list HttpCall -> HttpCall -> Res Response;
  (** [resp.raise_for_status()]: the message of the error it raises, if any. *)
  rt_status_error : Response -> option pystr;
  (** [resp.json()]: the decoded body, or the message of the decode error. *)
  rt_json : Response -> pystr + pyval
}.

(** The state of the world: clock readings so far, requests sent so far and,
    as a record of the gateway's use, the prompts passed to [chat]. *)
Record World := mkWorld {
  clock : nat;
  net_log : list HttpCall;
  llm_log : list pystr
}.

(** ** The monad of effectful, fallible code

    A computation runs in a frame of local variables [L] that it may assign
    (the [reasoning] list of a handler), changes the world, and returns a
    value or raises.  What was assigned before an exception stays assigned:
    the [except] clause sees it. *)

Definition M (L A : Type) : Type := L -> World -> Res A * L * World.

Definition ret {L A} (a : A) : M L A := fun l w => (Ok a, l, w).
Definition raise {L A} (e : exn) : M L A := fun l w => (Raise e, l, w).
Definition lift {L A} (r : Res A) : M L A := fun l w => (r, l, w).

Definition bind {L A B} (m : M L A) (k : A -> M L B) : M L B :=
  fun l w =>
    match m l w with
    | (Ok a, l', w') => k a l' w'
    | (Raise e, l', w') => (Raise e, l', w')
    end.

Definition get_locals {L} : M L L := fun l w => (Ok l, l, w).
Definition set_locals {L} (l' : L) : M L unit := fun _ w => (Ok tt, l', w).

(** A call: the callee runs in a frame of its own. *)
Definition call {L L' A} (init : L') (m : M L' A) : M L A :=
  fun l w => let '(r, _, w') := m init w in (r, l, w').

(** [try: m  except ...]: [h e] is the clause that catches [e], if any. *)
Definition try_catch {L A} (m : M L A) (h : exn -> option (M L A)) : M L A :=
  fun l w =>
    match m l w with
    | (Ok a, l', w') => (Ok a, l', w')
    | (Raise e, l', w') =>
      match h e with
      | Some k => k l' w'
      | None => (Raise e, l', w')
      end
    end.

(** [try: m  except Exception as e: h e] *)
Definition try_except {L A} (m : M L A) (h : exn -> M L A) : M L A :=
  fun l w =>
    match m l w with
    | (Ok a, l', w') => (Ok a, l', w')
    | (Raise e, l', w') =>
      if is_exception e then h e l' w' else (Raise e, l', w')
    end.

Declare Scope py_scope.
Delimit Scope py_scope with py.
Notation "x <- m ;; k" := (bind m (fun x => k))
  (at level 100, m at next level, right associativity) : py_scope.
Notation "m ;;; k" := (bind m (fun _ => k))
  (at level 100, right associativity) : py_scope.
Open Scope py_scope.

(** Subscripts, [len] and [.get] on arbitrary values, with the errors Python
    raises. *)
Definition subscript_str (v : pyval) (k : pystr) : Res pyval :=
  match v with
  | PDict d =>
    match dict_get k d with
    | Some x => Ok x
    | None => Raise (key_error k)
    end
  | PList _ =>
    Raise (type_error (lit "list indices must be integers or slices, not str"))
  | PStr _ =>
    Raise (type_error (lit "string indices must be integers, not 'str'"))
  | _ =>
    Raise (type_error (lit "'" ++ type_name v ++ lit "' object is not subscriptable"))
  end.

Definition subscript_0 (v : pyval) : Res pyval :=
  match v with
  | PList (x :: _) => Ok x
  | PList [] => Raise (index_error "list")
  | PStr (c :: _) => Ok (PStr [c])
  | PStr [] => Raise (index_error "string")
  | PDict _ => Raise (mkExn (OtherException (lit "KeyError")) (lit "0"))
  | _ =>
    Raise (type_error (lit "'" ++ type_name v ++ lit "' object is not subscriptable"))
  end.

Definition py_len (v : pyval) : Res nat :=
  match v with
  | PStr s => Ok (length s)
  | PList l => Ok (length l)
  | PDict d => Ok (length d)
  | _ =>
    Raise (type_error (lit "object of type '" ++ type_name v ++ lit "' has no len()"))
  end.

(** [v.get(k, default)] *)
Definition method_get (v : pyval) (k : pystr) (default : pyval) : Res pyval :=
  match v with
  | PDict d =>
    Ok (match dict_get k d with Some x => x | None => default end)
  | _ => Raise (attribute_error v "get")
  end.

(** ** shared/models.py *)

Record ReasoningStep := mkStep {
  step_number : Z;
  description : pystr;
  timestamp : pystr;
  input_data : option pydict;
  output_data : option pydict
}.

(** What a handler returns: a dictionary whose values are plain values or,
    under ["reasoning"], the list of steps. *)
Inductive rval :=
| V (v : pyval)
| Steps (l : list ReasoningStep).

Definition result := list (pystr * rval).

(** [PStr] under [V], and lists of strings. *)
Definition vstr (s : pystr) : rval := V (PStr s).
Definition vstrs (l : list pystr) : rval := V (PList (map PStr l)).

(** [r.get("reasoning", [])] *)
Definition reasoning_of (r : result) : list ReasoningStep :=
  match dict_get (lit "reasoning") r with
  | Some (Steps l) => l
  | _ => []
  end.

Section Program.

Variable rt : Runtime.

Definition str_lower (s : pystr) : pystr :=
  lower (rt_to_lower_full rt) (rt_final_sigma rt) s.

(** [datetime.utcnow()] *)
Definition utcnow {L} : M L datetime :=
  fun l w => (Ok (rt_utcnow rt (clock w)), l,
              mkWorld (S (clock w)) (net_log w) (llm_log w)).

(** [ReasoningStep(step_number=n, description=d, input_data=i,
    output_data=o)]: the timestamp is taken at creation. *)
Definition new_step {L} (n : Z) (d : pystr) (i o : option pydict)
  : M L ReasoningStep :=
  now <- utcnow ;;
  ret (mkStep n d (isoformat now) i o).

(** A request through [httpx]: it is recorded, and the world answers. *)
Definition http_send {L} (c : HttpCall) : M L Response :=
  fun l w => (rt_http rt (net_log w) c, l,
              mkWorld (clock w) (net_log w ++ [c]) (llm_log w)).

(** [resp.raise_for_status()] *)
Definition raise_for_status {L} (resp : Response) : M L unit :=
  match rt_status_error rt resp with
  | Some msg => raise (mkExn (HTTPStatusError resp) msg)
  | None => ret tt
  end.

(** [resp.json()] *)
Definition response_json {L} (resp : Response) : M L pyval :=
  match rt_json rt resp with
  | inl msg => raise (mkExn JSONDecodeError msg)
  | inr v => ret v
  end.

(** ** shared/llm_client.py *)

(** The attributes [api_key], [base_url] and [model] exist only on a client
    whose provider is groq. *)
Record LLMClient := mkLLMClient {
  provider : pystr;
  api_key : option pystr;
  base_url : option pystr;
  model : option pystr
}.

Definition getenv_default (environ : pystr -> option pystr) (k : string)
  (default : string) : pystr :=
  match environ (lit k) with Some v => v | None => lit default end.

(** [LLMClient.__init__] *)
Definition LLMClient_init (environ : pystr -> option pystr) : Res LLMClient :=
  let provider := str_lower (getenv_default environ "LLM_PROVIDER" "stub") in
  if PyStr.eqb provider (lit "groq") then
    let api_key := environ (lit "GROQ_API_KEY") in
    if negb (truthy_opt api_key)
    then Raise (mkExn (OtherException (lit "RuntimeError"))
                      (lit "GROQ_API_KEY is not set"))
    else Ok (mkLLMClient provider api_key
               (Some (lit "https://api.groq.com/openai/v1/chat/completions"))
               (Some (lit "llama-3.3-70b-versatile")))
  else Ok (mkLLMClient provider None None None).

(** [self.<name>] on the client. *)
Definition client_attr {L} (o : option pystr) (name : string) : M L pystr :=
  match o with
  | Some v => ret v
  | None =>
    raise (mkExn (OtherException (lit "AttributeError"))
                 (lit "'LLMClient' object has no attribute '" ++ lit name
                      ++ lit "'"))
  end.

(** The gateway's use is recorded in the world. *)
Definition note_chat {L} (prompt : pystr) : M L unit :=
  fun l w => (Ok tt, l, mkWorld (clock w) (net_log w) (llm_log w ++ [prompt])).

(** The body of the [try] of [chat]: the request to the provider and the
    extraction of the first choice's content.  The arguments of the log call
    are evaluated inside the [try] as well. *)
Definition chat_upstream {L} (c : LLMClient) (payload : pyval)
  (headers : pydict) : M L pyval :=
  url <- client_attr (base_url c) "base_url" ;;
  resp <- http_send (mkHttpCall POST url 30 None headers (Some payload) None) ;;
  raise_for_status resp ;;;
  data <- response_json resp ;;
  choices <- lift (subscript_str data (lit "choices")) ;;
  choice <- lift (subscript_0 choices) ;;
  message <- lift (subscript_str choice (lit "message")) ;;
  content <- lift (subscript_str message (lit "content")) ;;
  _ <- lift (py_len content) ;;
  usage1 <- lift (method_get data (lit "usage") (PDict [])) ;;
  _ <- lift (method_get usage1 (lit "total_tokens") (PStr (lit "unknown"))) ;;
  usage2 <- lift (method_get data (lit "usage") (PDict [])) ;;
  _ <- lift (method_get usage2 (lit "prompt_tokens") (PStr (lit "unknown"))) ;;
  usage3 <- lift (method_get data (lit "usage") (PDict [])) ;;
  _ <- lift (method_get usage3 (lit "completion_tokens") (PStr (lit "unknown"))) ;;
  ret content.

(** The [payload] and [headers] that [chat] builds. *)
Definition chat_payload (m prompt : pystr) : pyval :=
  PDict [
    (lit "model", PStr m);
    (lit "messages", PList [PDict [(lit "role", PStr (lit "user"));
                                   (lit "content", PStr prompt)]]);
    (lit "temperature", PFloat 0x1.6666666666666p-1%float);
    (lit "max_tokens", PInt 1024)].

Definition chat_headers (key : pystr) : pydict :=
  [ (lit "Authorization", PStr (lit "Bearer " ++ key));
    (lit "Content-Type", PStr (lit "application/json")) ].

(** [LLMClient.chat] *)
Definition chat {L} (c : LLMClient) (prompt : pystr) : M L pyval :=
  note_chat prompt ;;;
  _ <- (if PyStr.eqb (provider c) (lit "groq")
        then client_attr (model c) "model" else ret (lit "stub")) ;;
  if PyStr.eqb (provider c) (lit "stub") then
    ret (PStr (lit "[stub] " ++ prompt))
  else if negb (PyStr.eqb (provider c) (lit "groq")) then
    ret (PStr (lit "[unsupported provider] " ++ provider c))
  else
    m <- client_attr (model c) "model" ;;
    let payload := chat_payload m prompt in
    key <- client_attr (api_key c) "api_key" ;;
    let headers := chat_headers key in
    try_except (chat_upstream c payload headers)
      (fun e => ret (PStr (lit "[LLM error] " ++ exn_str e))).

(** [LLMClient.chat_structured] *)
Definition chat_structured {L} (c : LLMClient) (prompt : pystr)
  : M L pydict :=
  text <- chat c prompt ;;
  ret [(lit "raw", text)].

(** ** shared/jira.py *)

Record JiraClient := mkJiraClient {
  url : pystr;
  email : option pystr;
  token : option pystr;
  project_key : pystr;
  mock_mode : bool
}.

(** [JiraClient.__init__] *)
Definition JiraClient_init (environ : pystr -> option pystr) : JiraClient :=
  let url := rstrip_chars (lit "/") (getenv_default environ "JIRA_URL" "") in
  let email := environ (lit "JIRA_EMAIL") in
  let token := environ (lit "JIRA_API_TOKEN") in
  let project_key := getenv_default environ "JIRA_PROJECT_KEY" "PROJ" in
  if negb (truthy_str url && truthy_opt email && truthy_opt token)
  then mkJiraClient url email token project_key true
  else mkJiraClient url email token project_key false.

(** [httpx.BasicAuth(self.email, self.token)] *)
Definition basic_auth {L} (j : JiraClient) : M L (pystr * pystr) :=
  match email j, token j with
  | Some e, Some t => ret (e, t)
  | _, _ =>
    raise (type_error
             (lit "sequence item 0: expected a bytes-like object, NoneType found"))
  end.

(** [f"{v}"] *)
Definition py_str (v : pyval) : pystr :=
  match v with
  | PStr s => s
  | _ => rt_str rt v
  end.

(** [JiraClient.create_task] *)
Definition create_task {L} (j : JiraClient)
  (summary description issue_type : pystr) : M L pydict :=
  if mock_mode j then
    let mock_key :=
      project_key j ++ lit "-" ++ str_of_Z (rt_hash rt summary mod 1000) in
    ret [ (lit "status", PStr (lit "mock_created"));
          (lit "issue_key", PStr mock_key);
          (lit "url", PStr (lit "https://mock-jira.atlassian.net/browse/"
                              ++ mock_key));
          (lit "mock", PBool true) ]
  else
    auth <- basic_auth j ;;
    let payload := PDict [
      (lit "fields", PDict [
        (lit "project", PDict [(lit "key", PStr (project_key j))]);
        (lit "summary", PStr summary);
        (lit "description", PDict [
          (lit "type", PStr (lit "doc"));
          (lit "version", PInt 1);
          (lit "content", PList [PDict [
            (lit "type", PStr (lit "paragraph"));
            (lit "content", PList [PDict [
              (lit "type", PStr (lit "text"));
              (lit "text", PStr description)]])]])]);
        (lit "issuetype", PDict [(lit "name", PStr issue_type)])])] in
    try_catch
      (resp <- http_send
                 (mkHttpCall POST (url j ++ lit "/rest/api/3/issue") 15
                    (Some auth)
                    [(lit "Content-Type", PStr (lit "application/json"))]
                    (Some payload) None) ;;
       raise_for_status resp ;;;
       data <- response_json resp ;;
       issue_key <- lift (subscript_str data (lit "key")) ;;
       let browse := url j ++ lit "/browse/" ++ py_str issue_key in
       issue_id <- lift (method_get data (lit "id") PNone) ;;
       ret [ (lit "status", PStr (lit "created"));
             (lit "issue_key", issue_key);
             (lit "url", PStr browse);
             (lit "id", issue_id);
             (lit "mock", PBool false) ])
      (fun e =>
         match exn_class e with
         | HTTPStatusError r =>
           Some (ret [ (lit "status", PStr (lit "error"));
                       (lit "error",
                        PStr (lit "HTTP " ++ str_of_Z (status_code r)
                                ++ lit ": " ++ slice_to 200 (text r)));
                       (lit "mock", PBool false) ])
         | NonException _ => None
         | _ =>
           Some (ret [ (lit "status", PStr (lit "error"));
                       (lit "error", PStr (exn_str e));
                       (lit "mock", PBool false) ])
         end).

Definition mock_issue (j : JiraClient) (n summary status : string) : pyval :=
  PDict [ (lit "key", PStr (project_key j ++ lit "-" ++ lit n));
          (lit "fields", PDict [
             (lit "summary", PStr (lit summary));
             (lit "status", PDict [(lit "name", PStr (lit status))])]) ].

(** [JiraClient.get_project_issues] *)
Definition get_project_issues {L} (j : JiraClient) (max_results : Z)
  : M L pyval :=
  if mock_mode j then
    ret (PList [ mock_issue j "1" "Implement authentication" "Done";
                 mock_issue j "2" "Add API documentation" "In Progress";
                 mock_issue j "3" "Setup CI/CD" "To Do" ])
  else
    auth <- basic_auth j ;;
    try_except
      (resp <- http_send
                 (mkHttpCall GET (url j ++ lit "/rest/api/3/search") 15
                    (Some auth) [] None
                    (Some [ (lit "jql", PStr (lit "project=" ++ project_key j));
                            (lit "maxResults", PInt max_results);
                            (lit "fields",
                             PStr (lit "summary,status,assignee,created")) ])) ;;
       raise_for_status resp ;;;
       data <- response_json resp ;;
       lift (method_get data (lit "issues") (PList [])))
      (fun _ => ret (PList [])).

(** ** The local variables of a handler

    A handler appends to its [reasoning] list (and [plan_with_jira] to its
    [jira_issues] list) inside [try] blocks whose [except] clauses read
    them. *)

Record Locals := mkLocals {
  reasoning : list ReasoningStep;
  jira_issues : list pyval
}.

Definition no_locals : Locals := mkLocals [] [].

Definition assign_reasoning (r : list ReasoningStep) : M Locals unit :=
  fun l w => (Ok tt, mkLocals r (jira_issues l), w).

Definition assign_jira_issues (i : list pyval) : M Locals unit :=
  fun l w => (Ok tt, mkLocals (reasoning l) i, w).

Definition read_reasoning : M Locals (list ReasoningStep) :=
  l <- get_locals ;; ret (reasoning l).

Definition read_jira_issues : M Locals (list pyval) :=
  l <- get_locals ;; ret (jira_issues l).

(** [reasoning.extend(steps)] *)
Definition extend_reasoning (steps : list ReasoningStep) : M Locals unit :=
  r <- read_reasoning ;; assign_reasoning (r ++ steps).

(** [reasoning.append(ReasoningStep(...))] *)
Definition step (n : Z) (d : string) (i o : option pydict) : M Locals unit :=
  s <- new_step n (lit d) i o ;; extend_reasoning [s].

(** [jira_issues.append(v)] *)
Definition append_jira_issue (v : pyval) : M Locals unit :=
  i <- read_jira_issues ;; assign_jira_issues (i ++ [v]).

Definition nl : pystr := [10%N].

Definition opt_str (o : option pystr) : pyval :=
  match o with Some s => PStr s | None => PNone end.

Definition is_none {A} (o : option A) : bool :=
  match o with None => true | Some _ => false end.

Definition pint (n : nat) : pyval := PInt (Z.of_nat n).

(** [v.split(sep)] on what [chat] returned. *)
Definition method_split (v : pyval) (sep : pystr) : Res (list pystr) :=
  match v with
  | PStr s => Ok (split sep s)
  | _ => Raise (attribute_error v "split")
  end.

(** [v[:n]] on a value that has a [split] method. *)
Definition str_slice_to (n : nat) (v : pyval) : pyval :=
  match v with
  | PStr s => PStr (slice_to n s)
  | _ => v
  end.

(** ** agents/planner/agent.py *)

Definition error_indicators : list pystr :=
  [ lit "llm error"; lit "unauthorized"; lit "401"; lit "client error";
    lit "for more information check"; lit "status/401";
    lit "connection error"; lit "timeout" ].

Definition stub_indicators : list pystr :=
  [ lit "[stub]"; lit "you are a senior project planner";
    lit "return only a numbered list"; lit "break down this task";
    lit "each subtask should be" ].

(** [PlannerAgent._is_invalid_response] *)
Definition _is_invalid_response (subtasks : list pystr) : bool :=
  match subtasks with
  | [] => true
  | _ =>
    let text := str_lower (join (lit " ") subtasks) in
    existsb (fun indicator => contains indicator text)
            (error_indicators ++ stub_indicators)
  end.

(** The condition of the first comprehension of [plan]:
    [line.strip() and line.strip()[0] in "0123456789.-"]. *)
Definition is_list_item (line : pystr) : bool :=
  match strip line with
  | [] => false
  | c :: _ => contains [c] (lit "0123456789.-")
  end.

Definition parse_subtasks (lines : list pystr) : list pystr :=
  map (fun line => lstrip_chars (lit "0123456789.-) ") (strip line))
      (filter is_list_item lines).

(** The second comprehension: the first five non-blank lines, stripped. *)
Definition first_lines (lines : list pystr) : list pystr :=
  slice_to 5 (map strip (filter (fun line => truthy_str (strip line)) lines)).

Definition fallback_subtasks : list pystr :=
  [ lit "Research requirements and constraints";
    lit "Design solution architecture";
    lit "Implement core functionality";
    lit "Add validation and error handling";
    lit "Write tests and documentation" ].

Definition plan_prompt (description : pystr) : pystr :=
  lit "You are a senior project planner." ++ nl
  ++ lit "Break down this task into 3-5 concrete, actionable subtasks:" ++ nl
  ++ description ++ nl ++ nl
  ++ lit "Return ONLY a numbered list, one subtask per line." ++ nl
  ++ lit "Each subtask should be clear and specific.".

(** [PlannerAgent.plan] *)
Definition plan (llm : LLMClient) (description : pystr) : M Locals result :=
  assign_reasoning [] ;;;
  step 1 "Received task for planning"
       (Some [(lit "description", PStr description)]) None ;;;
  let prompt := plan_prompt description in
  step 2 "Generated prompt for LLM planning" None None ;;;
  try_except
    (response <- chat llm prompt ;;
     lines <- lift (method_split response nl) ;;
     let subtasks := parse_subtasks lines in
     subtasks <- (match subtasks with
                  | [] => lines' <- lift (method_split response nl) ;;
                          ret (first_lines lines')
                  | _ => ret subtasks
                  end) ;;
     subtasks <-
       (if _is_invalid_response subtasks then
          step 4 "Detected LLM stub/error response — using safe fallback subtasks"
               None
               (Some [ (lit "fallback_used", PBool true);
                       (lit "original_response_preview",
                        str_slice_to 200 response) ]) ;;;
          ret fallback_subtasks
        else
          step 4 "Successfully parsed subtasks from LLM response" None
               (Some [ (lit "subtasks_count", pint (length subtasks));
                       (lit "subtasks", PList (map PStr subtasks)) ]) ;;;
          ret subtasks) ;;
     r <- read_reasoning ;;
     ret [ (lit "task", vstr description);
           (lit "subtasks", vstrs subtasks);
           (lit "reasoning", Steps r) ])
    (fun e =>
       step 5 "Critical planning failure" None
            (Some [(lit "error", PStr (exn_str e))]) ;;;
       r <- read_reasoning ;;
       ret [ (lit "task", vstr description);
             (lit "error", vstr (exn_str e));
             (lit "reasoning", Steps r);
             (lit "fallback_subtasks", vstrs [lit "Manual planning required"]) ]).

(** [plan_result.get("subtasks", [])] *)
Definition subtasks_of (r : result) : list pyval :=
  match dict_get (lit "subtasks") r with
  | Some (V (PList l)) => l
  | _ => []
  end.

(** The loop of [plan_with_jira] over [enumerate(subtasks, 1)]. *)
Fixpoint create_subtasks (jira : JiraClient) (description : pystr) (i : nat)
  (subtasks : list pyval) : M Locals unit :=
  match subtasks with
  | [] => ret tt
  | subtask :: rest =>
    issue_result <-
      create_task jira
        (lit "[Subtask " ++ str_of_nat i ++ lit "] " ++ py_str subtask)
        (lit "Part of epic: " ++ description) (lit "Task") ;;
    append_jira_issue (PDict issue_result) ;;;
    create_subtasks jira description (S i) rest
  end.

(** [PlannerAgent.plan_with_jira] *)
Definition plan_with_jira (llm : LLMClient) (jira : JiraClient)
  (description : pystr) (project_key : option pystr) : M Locals result :=
  assign_reasoning [] ;;;
  step 1 "Received task for planning with Jira integration"
       (Some [ (lit "description", PStr description);
               (lit "project_key", opt_str project_key) ]) None ;;;
  plan_result <- call no_locals (plan llm description) ;;
  let subtasks := subtasks_of plan_result in
  extend_reasoning (reasoning_of plan_result) ;;;
  if dict_mem (lit "error") plan_result
     && negb (dict_mem (lit "fallback_subtasks") plan_result)
  then ret plan_result
  else
    step 2 "Planning phase completed, initiating Jira integration" None
         (Some [(lit "subtasks_count", pint (length subtasks))]) ;;;
    assign_jira_issues [] ;;;
    try_except
      (epic_result <-
         create_task jira (lit "[Epic] " ++ description)
           (lit "Auto-generated by OrchestrAI" ++ nl
              ++ lit "Subtasks planned: " ++ str_of_nat (length subtasks))
           (lit "Task") ;;
       append_jira_issue (PDict epic_result) ;;;
       step 3 "Created Epic in Jira" None
            (Some [(lit "epic", PDict epic_result)]) ;;;
       create_subtasks jira description 1 subtasks ;;;
       issues <- read_jira_issues ;;
       step 4 "Successfully created all Jira issues" None
            (Some [(lit "total_issues_created", pint (length issues))]))
      (fun e =>
         step 5 "Jira task creation failed" None
              (Some [(lit "error", PStr (exn_str e))]) ;;;
         append_jira_issue
           (PDict [ (lit "status", PStr (lit "error"));
                    (lit "details", PStr (exn_str e)) ])) ;;;
    r <- read_reasoning ;;
    issues <- read_jira_issues ;;
    ret [ (lit "task", vstr description);
          (lit "subtasks", V (PList subtasks));
          (lit "jira_issues", V (PList issues));
          (lit "jira_mode",
           vstr (if mock_mode jira then lit "mock" else lit "real"));
          (lit "reasoning", Steps r) ].

(** ** agents/risks/agent.py *)

Definition risk_markers : list pystr :=
  [ lit "- "; lit "* "; lit "• "; lit "1."; lit "2."; lit "3."; lit "4.";
    lit "5." ].

(** The condition on a stripped line: a marker in front, ["Risk:"], or
    ["risk"] in any case. *)
Definition looks_like_risk (line : pystr) : bool :=
  truthy_str line
  && (startswith_any risk_markers line
      || contains (lit "Risk:") line
      || contains (lit "risk") (str_lower line)).

Definition clean_risk_line (line : pystr) : pystr :=
  strip (lstrip_chars (lit "-*•0123456789. ") line).

(** One turn of the loop over the lines of the analysis. *)
Definition risk_step (detected_risks : list pystr) (line : pystr)
  : list pystr :=
  let line := strip line in
  if looks_like_risk line then
    let clean_line := clean_risk_line line in
    if (20 <? length clean_line)%nat
    then detected_risks ++ [clean_line]
    else detected_risks
  else detected_risks.

(** The loop, then [detected_risks[:10]]. *)
Definition detect_risks (lines : list pystr) : list pystr :=
  slice_to 10 (fold_left risk_step lines []).

Definition risks_prompt (feature : pystr) : pystr :=
  lit "Analyze risks for implementing: " ++ feature ++ nl ++ nl
  ++ lit "Provide a concise risk analysis covering:" ++ nl
  ++ lit "1. Security risks (top 2-3)" ++ nl
  ++ lit "2. Performance risks (top 2)" ++ nl
  ++ lit "3. Technical debt risks (top 2)" ++ nl
  ++ lit "4. Compliance risks (if applicable)" ++ nl ++ nl
  ++ lit "For each risk, provide:" ++ nl
  ++ lit "- Risk name (brief)" ++ nl
  ++ lit "- Impact (High/Medium/Low)" ++ nl
  ++ lit "- Quick mitigation strategy (1 sentence)" ++ nl ++ nl
  ++ lit "Keep total response under 500 words. Use bullet points.".

(** [RisksAgent.analyze_risks] *)
Definition analyze_risks (llm : LLMClient) (feature : pystr)
  : M Locals result :=
  assign_reasoning [] ;;;
  step 1 "Risk analysis requested"
       (Some [(lit "feature", PStr feature)]) None ;;;
  let prompt := risks_prompt feature in
  step 2 "Generated risk analysis prompt" None None ;;;
  try_except
    (analysis <- chat llm prompt ;;
     lines <- lift (method_split analysis nl) ;;
     let detected_risks := detect_risks lines in
     analysis_length <- lift (py_len analysis) ;;
     step 3 "Risk analysis completed" None
          (Some [ (lit "risks_count", pint (length detected_risks));
                  (lit "analysis_length", pint analysis_length) ]) ;;;
     r <- read_reasoning ;;
     ret [ (lit "feature", vstr feature);
           (lit "risk_analysis", V analysis);
           (lit "detected_risks", vstrs detected_risks);
           (lit "total_risks", V (pint (length detected_risks)));
           (lit "reasoning", Steps r) ])
    (fun e =>
       step 4 "Risk analysis failed" None
            (Some [(lit "error", PStr (exn_str e))]) ;;;
       r <- read_reasoning ;;
       ret [ (lit "feature", vstr feature);
             (lit "error", vstr (exn_str e));
             (lit "reasoning", Steps r);
             (lit "fallback", vstr (lit "Manual risk assessment required")) ]).

(** ** agents/digest/agent.py *)

Definition digest_prompt (date : pystr) : pystr :=
  lit "Generate a concise daily project digest for " ++ date ++ lit "."
  ++ nl ++ nl
  ++ lit "Structure:" ++ nl
  ++ lit "📅 Date: " ++ date ++ nl ++ nl
  ++ lit "✅ Key Achievements (2-3 items):" ++ nl
  ++ lit "- [List main accomplishments]" ++ nl ++ nl
  ++ lit "🚧 Current Blockers (if any):" ++ nl
  ++ lit "- [List or write 'None']" ++ nl ++ nl
  ++ lit "👥 Team Status:" ++ nl
  ++ lit "- [Brief mood/productivity note]" ++ nl ++ nl
  ++ lit "📊 Progress Summary:" ++ nl
  ++ lit "- [1-2 sentences on overall progress]" ++ nl ++ nl
  ++ lit "Keep it positive, actionable, and under 150 words total.".

(** [DigestAgent.daily_digest].  The variable [date] is assigned the current
    date when it comes in empty; the first step is built after that. *)
Definition daily_digest (llm : LLMClient) (date : option pystr)
  : M Locals result :=
  assign_reasoning [] ;;;
  date <- (if negb (truthy_opt date)
           then now <- utcnow ;; ret (Some (strftime_Ymd now))
           else ret date) ;;
  step 1 "Daily digest requested"
       (Some [ (lit "date", opt_str date);
               (lit "auto_date", PBool (is_none date)) ]) None ;;;
  let prompt := digest_prompt (py_str (opt_str date)) in
  step 2 "Generated digest prompt" None None ;;;
  try_except
    (digest <- chat llm prompt ;;
     digest_length <- lift (py_len digest) ;;
     step 3 "Daily digest generated" None
          (Some [ (lit "digest_length", pint digest_length);
                  (lit "date_used", opt_str date) ]) ;;;
     r <- read_reasoning ;;
     generated_at <- utcnow ;;
     ret [ (lit "date", V (opt_str date));
           (lit "summary", V digest);
           (lit "generated_at", vstr (isoformat generated_at));
           (lit "reasoning", Steps r) ])
    (fun e =>
       step 4 "Digest generation failed" None
            (Some [(lit "error", PStr (exn_str e))]) ;;;
       r <- read_reasoning ;;
       ret [ (lit "date", V (opt_str date));
             (lit "error", vstr (exn_str e));
             (lit "reasoning", Steps r);
             (lit "fallback", vstr (lit "No updates today")) ]).

(** ** agents/image/agent.py *)

Definition image_prompt (context : option pystr) : pystr :=
  lit "You are a senior UX and system design reviewer." ++ nl
  ++ lit "Analyze the provided image and give structured feedback." ++ nl ++ nl
  ++ lit "Context: "
  ++ (if truthy_opt context then py_str (opt_str context)
      else lit "Not provided") ++ nl ++ nl
  ++ lit "Provide:" ++ nl
  ++ lit "1. Short summary" ++ nl
  ++ lit "2. Detected issues (type + severity)" ++ nl
  ++ lit "3. Improvement suggestions" ++ nl
  ++ lit "Keep it concise and structured.".

(** [ImageAgent.analyze_image] *)
Definition analyze_image (llm : LLMClient)
  (image_url image_base64 context : option pystr) : M Locals result :=
  assign_reasoning [] ;;;
  step 1 "Image analysis requested"
       (Some [ (lit "image_url", opt_str image_url);
               (lit "has_base64", PBool (negb (is_none image_base64)));
               (lit "context", opt_str context) ]) None ;;;
  if negb (truthy_opt image_url) && negb (truthy_opt image_base64) then
    r <- read_reasoning ;;
    ret [ (lit "error", vstr (lit "No image provided"));
          (lit "reasoning", Steps r) ]
  else
    let prompt := image_prompt context in
    step 2 "Generated image analysis prompt" None None ;;;
    analysis <- chat llm prompt ;;
    analysis_length <- lift (py_len analysis) ;;
    step 3 "Image analysis completed" None
         (Some [(lit "analysis_length", pint analysis_length)]) ;;;
    r <- read_reasoning ;;
    ret [ (lit "summary", V analysis);
          (lit "reasoning", Steps r) ].

(** ** agents/progress/agent.py *)

Definition progress_prompt (commits : list pystr) : pystr :=
  lit "You are a progress tracking agent." ++ nl
  ++ lit "Analyze these commits and summarize achievements and velocity:" ++ nl
  ++ join nl (map (fun c => lit "- " ++ c) commits)
  ++ nl ++ nl ++ lit "Be concise and positive.".

(** [ProgressAgent.analyze_progress] *)
Definition analyze_progress (llm : LLMClient) (commits : list pystr)
  : M Locals result :=
  assign_reasoning [] ;;;
  step 1 "Received commits for progress analysis"
       (Some [(lit "commits_count", pint (length commits))]) None ;;;
  let prompt := progress_prompt commits in
  step 2 "Generated prompt for progress summary" None None ;;;
  try_except
    (summary <- chat llm prompt ;;
     summary_length <- lift (py_len summary) ;;
     step 3 "Received progress summary from LLM" None
          (Some [(lit "summary_length", pint summary_length)]) ;;;
     r <- read_reasoning ;;
     ret [ (lit "commits_count", V (pint (length commits)));
           (lit "commits", vstrs commits);
           (lit "summary", V summary);
           (lit "reasoning", Steps r) ])
    (fun e =>
       step 4 "Progress analysis failed" None
            (Some [(lit "error", PStr (exn_str e))]) ;;;
       r <- read_reasoning ;;
       ret [ (lit "commits_count", V (pint (length commits)));
             (lit "error", vstr (exn_str e));
             (lit "reasoning", Steps r);
             (lit "fallback", vstr (lit "Manual review needed")) ]).

(** [for issue in issues]: the items of a list, the characters of a string,
    the keys of a dictionary. *)
Definition py_iter (v : pyval) : list pyval :=
  match v with
  | PList l => l
  | PStr s => map (fun c => PStr [c]) s
  | PDict d => map (fun kv => PStr (fst kv)) d
  | _ => []
  end.

(** The keys of [status_counts] are whatever sits under
    [issue["fields"]["status"]["name"]].  Python also holds a number equal
    across [bool], [int] and [float] for one key; the counts of such keys are
    never read, since [k.lower()] fails on the first key that is not a
    string. *)
Definition is_hashable (v : pyval) : bool :=
  match v with
  | PList _ | PDict _ => false
  | _ => true
  end.

Definition key_eqb (a b : pyval) : bool :=
  match a, b with
  | PNone, PNone => true
  | PBool x, PBool y => Bool.eqb x y
  | PInt x, PInt y => (x =? y)%Z
  | PFloat x, PFloat y => PrimFloat.eqb x y
  | PStr x, PStr y => PyStr.eqb x y
  | _, _ => false
  end.

Fixpoint counts_get (k : pyval) (d : list (pyval * Z)) (default : Z) : Z :=
  match d with
  | [] => default
  | (k', v) :: r => if key_eqb k k' then v else counts_get k r default
  end.

Fixpoint counts_set (k : pyval) (v : Z) (d : list (pyval * Z))
  : list (pyval * Z) :=
  match d with
  | [] => [(k, v)]
  | (k', v') :: r =>
    if key_eqb k k' then (k', v) :: r else (k', v') :: counts_set k v r
  end.

(** The loop that counts the issues by status. *)
Fixpoint count_statuses (issues : list pyval) (status_counts : list (pyval * Z))
  : M Locals (list (pyval * Z)) :=
  match issues with
  | [] => ret status_counts
  | issue :: rest =>
    fields <- lift (subscript_str issue (lit "fields")) ;;
    st <- lift (subscript_str fields (lit "status")) ;;
    status <- lift (subscript_str st (lit "name")) ;;
    if is_hashable status then
      count_statuses rest
        (counts_set status (counts_get status status_counts 0 + 1)
                    status_counts)
    else
      raise (type_error (lit "unhashable type: '" ++ type_name status
                           ++ lit "'"))
  end.

(** [sum(v for k, v in status_counts.items()
         if k.lower() in ["done", "closed", "resolved"])] *)
Fixpoint sum_done (items : list (pyval * Z)) : Res Z :=
  match items with
  | [] => Ok 0%Z
  | (k, v) :: r =>
    match k with
    | PStr s =>
      match sum_done r with
      | Ok rest =>
        Ok ((if existsb (PyStr.eqb (str_lower s))
                  [lit "done"; lit "closed"; lit "resolved"]
             then v else 0) + rest)%Z
      | Raise e => Raise e
      end
    | _ => Raise (attribute_error k "lower")
    end
  end.

Definition float_of_Z (z : Z) : float := PrimFloat.of_uint63 (Uint63.of_Z z).

Definition status_breakdown (status_counts : list (pyval * Z)) : pyval :=
  PDict (flat_map (fun kv => match fst kv with
                             | PStr s => [(s, PInt (snd kv))]
                             | _ => []
                             end) status_counts).

Definition velocity_of (completion_rate : float) : pystr :=
  if PrimFloat.leb 80 completion_rate then lit "excellent"
  else if PrimFloat.leb 60 completion_rate then lit "good"
  else if PrimFloat.leb 30 completion_rate then lit "at_risk"
  else lit "critical".

Definition jira_mode_of (jira : JiraClient) : rval :=
  vstr (if mock_mode jira then lit "mock" else lit "real").

(** [ProgressAgent.jira_velocity] *)
Definition jira_velocity (jira : JiraClient) (project_key' : option pystr)
  : M Locals result :=
  assign_reasoning [] ;;;
  let project :=
    if truthy_opt project_key' then opt_str project_key'
    else PStr (project_key jira) in
  step 1 "Jira velocity analysis requested"
       (Some [(lit "project_key", project)]) None ;;;
  try_except
    (issues <- get_project_issues jira 50 ;;
     issues_count <- lift (py_len issues) ;;
     step 2 "Retrieved issues from Jira" None
          (Some [(lit "issues_count", pint issues_count)]) ;;;
     if (issues_count =? 0)%nat then
       step 3 "No issues found — returning mock data" None None ;;;
       r <- read_reasoning ;;
       ret [ (lit "project", V project);
             (lit "total_issues", V (PInt 0));
             (lit "status_breakdown", V (PDict []));
             (lit "completion_rate", V (PFloat 0%float));
             (lit "velocity_status", vstr (lit "no_data"));
             (lit "jira_mode", jira_mode_of jira);
             (lit "reasoning", Steps r) ]
     else
       status_counts <- count_statuses (py_iter issues) [] ;;
       let total := Z.of_nat issues_count in
       done_count <- lift (sum_done status_counts) ;;
       let completion_rate :=
         rt_round rt
           (PrimFloat.mul
              (PrimFloat.div (float_of_Z done_count) (float_of_Z total))
              100%float) 1 in
       let velocity_status := velocity_of completion_rate in
       step 3 "Calculated project velocity" None
            (Some [ (lit "total_issues", PInt total);
                    (lit "done_count", PInt done_count);
                    (lit "completion_rate", PFloat completion_rate);
                    (lit "velocity_status", PStr velocity_status) ]) ;;;
       r <- read_reasoning ;;
       ret [ (lit "project", V project);
             (lit "total_issues", V (PInt total));
             (lit "done_issues", V (PInt done_count));
             (lit "completion_rate", V (PFloat completion_rate));
             (lit "velocity_status", vstr velocity_status);
             (lit "status_breakdown", V (status_breakdown status_counts));
             (lit "jira_mode", jira_mode_of jira);
             (lit "reasoning", Steps r) ])
    (fun e =>
       step 4 "Jira velocity analysis failed" None
            (Some [(lit "error", PStr (exn_str e))]) ;;;
       r <- read_reasoning ;;
       ret [ (lit "error", vstr (exn_str e));
             (lit "jira_mode", vstr (lit "error"));
             (lit "reasoning", Steps r);
             (lit "fallback", vstr (lit "Velocity analysis unavailable")) ]).

(** ** shared/mcp_base.py *)

(** A registered handler, called with the request's [params] as keyword
    arguments. *)
Definition Handler := pydict -> M Locals result.

Record MCPAgent := mkAgent {
  name : pystr;
  tools : list (pystr * Handler)
}.

(** [MCPAgent.__init__] *)
Definition MCPAgent_init (name : pystr) : MCPAgent := mkAgent name [].

(** [MCPAgent.register_tool] *)
Definition register_tool (agent : MCPAgent) (name' : pystr) (handler : Handler)
  : MCPAgent :=
  mkAgent (name agent) (dict_set name' handler (tools agent)).

(** [GET /health] *)
Definition health (agent : MCPAgent) : result :=
  [ (lit "status", vstr (lit "ok")); (lit "agent", vstr (name agent)) ].

(** [POST /mcp] on the bytes of the request body. *)
Definition mcp (agent : MCPAgent) (body : list N) : M Locals result :=
  match rt_parse_request rt body with
  | Raise e =>
    match exn_class e with
    | JSONDecodeError =>
      ret [ (lit "error", vstr (lit "Invalid JSON"));
            (lit "details", vstr (exn_str e));
            (lit "hint",
             vstr (lit "Send valid JSON with 'method' and 'params'")) ]
    | ValidationError =>
      ret [ (lit "error", vstr (lit "Invalid MCP request format"));
            (lit "details", vstr (exn_str e));
            (lit "hint",
             vstr (lit "Required fields: method (str), params (dict)")) ]
    | NonException _ => raise e
    | _ =>
      ret [ (lit "error", vstr (lit "Request processing failed"));
            (lit "details", vstr (exn_str e)) ]
    end
  | Ok req =>
    let tool_name := replace (lit "tools/") (lit "") (method req) in
    match dict_get tool_name (tools agent) with
    | None =>
      ret [ (lit "error", vstr (lit "Unknown tool: " ++ tool_name));
            (lit "available_tools", vstrs (dict_keys (tools agent))) ]
    | Some handler =>
      try_catch (call no_locals (handler (params req)))
        (fun e =>
           match exn_class e with
           | TypeError =>
             Some (ret [ (lit "error",
                          vstr (lit "Invalid parameters for tool '"
                                  ++ tool_name ++ lit "'"));
                         (lit "details", vstr (exn_str e)) ])
           | NonException _ => None
           | _ =>
             Some (ret [ (lit "error", vstr (lit "Tool execution failed"));
                         (lit "tool", vstr tool_name);
                         (lit "details", vstr (exn_str e)) ])
           end)
    end
  end.

End Program.

(** ** Vocabulary of the statements *)

(** The stripping that the specification words: one leading ["tools/"] is
    removed, if there is one. *)
Definition strip_tools_prefix (m : pystr) : pystr :=
  if startswith (lit "tools/") m then skipn 6 m else m.

(** The reply to a method that names no tool. *)
Definition unknown_tool (tool_name : pystr) (registered : list pystr) : result :=
  [ (lit "error", vstr (lit "Unknown tool: " ++ tool_name));
    (lit "available_tools", vstrs registered) ].

Definition is_digit (c : N) : bool := ((48 <=? c) && (c <=? 57))%N.

(** A string of the shape YYYY-MM-DD. *)
Definition is_Ymd (s : pystr) : bool :=
  match s with
  | [y1; y2; y3; y4; h1; m1; m2; h2; d1; d2] =>
    forallb is_digit [y1; y2; y3; y4; m1; m2; d1; d2]
    && (h1 =? 45)%N && (h2 =? 45)%N
  | _ => false
  end.

(** Strings of [n] decimal digits. *)
Definition all_digits (n : nat) (s : pystr) : bool :=
  (length s =? n)%nat && forallb is_digit s.

(** A reading of the clock that [strftime] renders with a four-digit year. *)
Definition plain_date (d : datetime) : Prop :=
  (1000 <= dt_year d <= 9999 /\ 1 <= dt_month d <= 12 /\ 1 <= dt_day d <= 31)%N.

(** The status of an issue record, as [jira_velocity] reads it. *)
Definition issue_status (issue : pyval) : option pyval :=
  match subscript_str issue (lit "fields") with
  | Ok fields =>
    match subscript_str fields (lit "status") with
    | Ok st =>
      match subscript_str st (lit "name") with
      | Ok n => Some n
      | Raise _ => None
      end
    | Raise _ => None
    end
  | Raise _ => None
  end.

(** A line that the loop of the risk handler keeps. *)
Definition kept_line (rt : Runtime) (line : pystr) : bool :=
  looks_like_risk rt (strip line)
  && (20 <? length (clean_risk_line (strip line)))%nat.

(** A computation that leaves the local variables of its caller alone. *)
Definition keeps_locals {L A} (m : M L A) : Prop :=
  forall l w, snd (fst (m l w)) = l.

(** Step numbers of the trace of a result. *)
Definition step_numbers (r : result) : list Z :=
  map step_number (reasoning_of r).

(** Each number is at least the one before it. *)
Fixpoint monotonic (l : list Z) : bool :=
  match l with
  | a :: (b :: _) as r => (a <=? b)%Z && monotonic r
  | _ => true
  end.

(** Monotonic, and the first number is 1. *)
Definition numbered_from_1 (l : list Z) : bool :=
  match l with
  | 1%Z :: _ => monotonic l
  | _ => false
  end.

(** The invocations of the tool handlers of the five agents. *)
Inductive invocation :=
| Plan (llm : LLMClient) (description : pystr)
| PlanWithJira (llm : LLMClient) (jira : JiraClient) (description : pystr)
               (project_key : option pystr)
| AnalyzeRisks (llm : LLMClient) (feature : pystr)
| DailyDigest (llm : LLMClient) (date : option pystr)
| AnalyzeImage (llm : LLMClient) (image_url image_base64 context : option pystr)
| AnalyzeProgress (llm : LLMClient) (commits : list pystr)
| JiraVelocity (jira : JiraClient) (project_key : option pystr).

Definition invoke (rt : Runtime) (i : invocation) : M Locals result :=
  match i with
  | Plan llm d => plan rt llm d
  | PlanWithJira llm jira d k => plan_with_jira rt llm jira d k
  | AnalyzeRisks llm f => analyze_risks rt llm f
  | DailyDigest llm d => daily_digest rt llm d
  | AnalyzeImage llm u b c => analyze_image rt llm u b c
  | AnalyzeProgress llm cs => analyze_progress rt llm cs
  | JiraVelocity jira k => jira_velocity rt jira k
  end.

Definition is_composite (i : invocation) : bool :=
  match i with PlanWithJira _ _ _ _ => true | _ => false end.

(** The trace of the composite handler: its first step, the trace of the
    inner planning handler, its later steps. *)
Definition composite_trace (l : list Z) : Prop :=
  exists inner later,
    l = 1%Z :: inner ++ later
    /\ numbered_from_1 inner = true
    /\ monotonic (1%Z :: later) = true
    /\ hd 0%Z later = 2%Z.

(** What a run returned, if it returned. *)
Definition returned {A L} (x : Res A * L * World) : option A :=
  match x with
  | (Ok a, _, _) => Some a
  | (Raise _, _, _) => None
  end.

(** ** A sample runtime

    A world for the closed examples: ASCII lower-casing, a hash that counts
    characters, a clock that stands at noon on 7 May 2024, and a provider
    that answers every request with the content [reply]. *)

Definition sample_request : MCPRequest :=
  mkRequest (lit "pltools/an") [] None.

Definition sample_reply (content : pyval) : pyval :=
  PDict [ (lit "choices",
           PList [PDict [(lit "message",
                          PDict [(lit "content", content)])]]) ].

Definition sample_rt (http : Res Response) (content : pyval) : Runtime :=
  mkRuntime (fun c => [ascii_lower c]) (fun _ _ => false)
    (fun s => Z.of_nat (length s)) (fun f _ => f) (fun _ => lit "?")
    (fun _ => Ok sample_request)
    (fun _ => mkDatetime 2024 5 7 12 0 0 0)
    (fun _ _ => http) (fun _ => None) (fun _ => inr (sample_reply content)).

Definition sample_ok : Res Response := Ok (mkResponse 200 []).

Definition connect_error : exn :=
  mkExn (OtherException (lit "ConnectError")) (lit "All connection attempts failed").

Definition list_text : pystr :=
  lit "1. Do A" ++ nl ++ lit "2. Do B" ++ nl ++ lit "3. Do C".

Definition sample_analysis : pystr :=
  lit "- Token theft through a leaked refresh token" ++ nl
  ++ lit "- Too short" ++ nl
  ++ lit "- exactly twenty chars" ++ nl
  ++ lit "The weather is fine today, nothing to see".

Definition stub_client : LLMClient := mkLLMClient (lit "stub") None None None.

Definition groq_environ (k : pystr) : option pystr :=
  if PyStr.eqb k (lit "LLM_PROVIDER") then Some (lit "groq")
  else if PyStr.eqb k (lit "GROQ_API_KEY") then Some (lit "secret")
  else None.

Definition groq_client : LLMClient :=
  mkLLMClient (lit "groq") (Some (lit "secret"))
    (Some (lit "https://api.groq.com/openai/v1/chat/completions"))
    (Some (lit "llama-3.3-70b-versatile")).

Definition mock_jira : JiraClient := JiraClient_init (fun _ => None).

Definition sample_handler : Handler := fun _ => ret [(lit "ok", V (PBool true))].

Definition sample_agent : MCPAgent :=
  register_tool (MCPAgent_init (lit "Planner")) (lit "plan") sample_handler.

Definition other_agent : MCPAgent :=
  register_tool (MCPAgent_init (lit "Planner")) (lit "plan_with_jira")
    sample_handler.

Definition world0 : World := mkWorld 0 [] [].

(** The request that [chat] sends to the provider. *)
Definition chat_request (c : LLMClient) (prompt : pystr) : option HttpCall :=
  match model c, api_key c, base_url c with
  | Some m, Some k, Some u =>
    Some (mkHttpCall POST u 30 None (chat_headers k)
            (Some (chat_payload m prompt)) None)
  | _, _, _ => None
  end.

(** A transport or HTTP failure of the call to the provider in the world
    [w]: the request itself raises, or the response carries an error status
    and [raise_for_status] raises. *)
Inductive upstream_failure (rt : Runtime) (c : LLMClient) (prompt : pystr)
  (w : World) : exn -> Prop :=
| transport_failure call e :
    chat_request c prompt = Some call ->
    rt_http rt (net_log w) call = Raise e ->
    is_exception e = true ->
    upstream_failure rt c prompt w e
| http_failure call resp msg :
    chat_request c prompt = Some call ->
    rt_http rt (net_log w) call = Ok resp ->
    rt_status_error rt resp = Some msg ->
    upstream_failure rt c prompt w (mkExn (HTTPStatusError resp) msg).


(** ** Vocabulary of the further properties *)

(** Values that [len] accepts. *)
Definition has_len (v : pyval) : bool :=
  match v with
  | PStr _ | PList _ | PDict _ => true
  | _ => false
  end.

(** A computation that leaves one component of the world alone. *)
Definition keeps_field {F L A} (f : World -> F) (m : M L A) : Prop :=
  forall l w, f (snd (m l w)) = f w.

Definition tools_request : MCPRequest :=
  mkRequest (lit "tools/plan") [] None.

Definition sample_rt_req (req : MCPRequest) : Runtime :=
  mkRuntime (fun c => [ascii_lower c]) (fun _ _ => false)
    (fun s => Z.of_nat (length s)) (fun f _ => f) (fun _ => lit "?")
    (fun _ => Ok req)
    (fun _ => mkDatetime 2024 5 7 12 0 0 0)
    (fun _ _ => sample_ok) (fun _ => None) (fun _ => inr PNone).

(** The [usage] entry of a response body is absent or a dictionary. *)
Definition usage_ok (d : pydict) : bool :=
  match dict_get (lit "usage") d with
  | None | Some (PDict _) => true
  | Some _ => false
  end.

Definition openai_environ (k : pystr) : option pystr :=
  if PyStr.eqb k (lit "LLM_PROVIDER") then Some (lit "OpenAI") else None.

Definition openai_client : LLMClient :=
  mkLLMClient (lit "openai") None None None.

(** A tracker configuration with the three credentials. *)
Definition real_environ (k : pystr) : option pystr :=
  if PyStr.eqb k (lit "JIRA_URL") then Some (lit "https://acme.atlassian.net//")
  else if PyStr.eqb k (lit "JIRA_EMAIL") then Some (lit "dev@acme.io")
  else if PyStr.eqb k (lit "JIRA_API_TOKEN") then Some (lit "token")
  else None.

Definition real_jira : JiraClient := JiraClient_init real_environ.

(** The request that [create_task] sends in real mode. *)
Definition create_task_request (j : JiraClient)
  (summary description issue_type : pystr) (auth : pystr * pystr) : HttpCall :=
  mkHttpCall POST (url j ++ lit "/rest/api/3/issue") 15 (Some auth)
    [(lit "Content-Type", PStr (lit "application/json"))]
    (Some (PDict [
      (lit "fields", PDict [
        (lit "project", PDict [(lit "key", PStr (project_key j))]);
        (lit "summary", PStr summary);
        (lit "description", PDict [
          (lit "type", PStr (lit "doc"));
          (lit "version", PInt 1);
          (lit "content", PList [PDict [
            (lit "type", PStr (lit "paragraph"));
            (lit "content", PList [PDict [
              (lit "type", PStr (lit "text"));
              (lit "text", PStr description)]])]])]);
        (lit "issuetype", PDict [(lit "name", PStr issue_type)])])]))
    None.

(** The request that [get_project_issues] sends in real mode. *)
Definition search_request (j : JiraClient) (max_results : Z)
  (auth : pystr * pystr) : HttpCall :=
  mkHttpCall GET (url j ++ lit "/rest/api/3/search") 15 (Some auth) [] None
    (Some [ (lit "jql", PStr (lit "project=" ++ project_key j));
            (lit "maxResults", PInt max_results);
            (lit "fields", PStr (lit "summary,status,assignee,created")) ]).

Definition server_error : Response := mkResponse 500 (lit "Internal Server Error").

Definition sample_rt_status (resp : Response) (msg : option pystr) : Runtime :=
  mkRuntime (fun c => [ascii_lower c]) (fun _ _ => false)
    (fun s => Z.of_nat (length s)) (fun f _ => f) (fun _ => lit "?")
    (fun _ => Ok sample_request)
    (fun _ => mkDatetime 2024 5 7 12 0 0 0)
    (fun _ _ => Ok resp) (fun _ => msg) (fun _ => inr PNone).

(** The date that [daily_digest] works with: the one it is given, or the
    current one when it is given none or an empty one. *)
Definition effective_date (rt : Runtime) (date : option pystr) (w : World)
  : pystr :=
  match date with
  | Some (c :: d) => c :: d
  | _ => strftime_Ymd (rt_utcnow rt (clock w))
  end.


Definition not_groq (llm : LLMClient) : bool :=
  negb (PyStr.eqb (provider llm) (lit "groq")).

(** An invocation whose gateways are a provider other than groq and a
    tracker in mock mode. *)
Definition offline (i : invocation) : bool :=
  match i with
  | Plan llm _ => not_groq llm
  | PlanWithJira llm jira _ _ => not_groq llm && mock_mode jira
  | AnalyzeRisks llm _ => not_groq llm
  | DailyDigest llm _ => not_groq llm
  | AnalyzeImage llm _ _ _ => not_groq llm
  | AnalyzeProgress llm _ => not_groq llm
  | JiraVelocity jira _ => mock_mode jira
  end.


(** The sum of the counts of [status_counts]. *)
Definition total_count (counts : list (pyval * Z)) : Z :=
  fold_right (fun kv acc => (snd kv + acc)%Z) 0%Z counts.

Definition all_positive (counts : list (pyval * Z)) : Prop :=
  forall kv, In kv counts -> (0 < snd kv)%Z.

(** The record that [create_task] returns in mock mode. *)
Definition mock_record (rt : Runtime) (j : JiraClient) (summary : pystr)
  : pydict :=
  let mock_key :=
    project_key j ++ lit "-" ++ str_of_Z (rt_hash rt summary mod 1000) in
  [ (lit "status", PStr (lit "mock_created"));
    (lit "issue_key", PStr mock_key);
    (lit "url", PStr (lit "https://mock-jira.atlassian.net/browse/"
                        ++ mock_key));
    (lit "mock", PBool true) ].

(** The records of the subtasks, numbered from [i]. *)
Fixpoint subtask_records (rt : Runtime) (j : JiraClient) (i : nat)
  (subtasks : list pyval) : list pyval :=
  match subtasks with
  | [] => []
  | subtask :: rest =>
    PDict (mock_record rt j (lit "[Subtask " ++ str_of_nat i ++ lit "] "
                               ++ py_str rt subtask))
      :: subtask_records rt j (S i) rest
  end.
(** * Properties *)

Unset Implicit Arguments.

(** ** Strings *)

Lemma eqb_refl (s : pystr) : PyStr.eqb s s = true.
Proof. induction s; simpl; [reflexivity|]. now rewrite N.eqb_refl. Qed.

Lemma eqb_eq (a b : pystr) : PyStr.eqb a b = true <-> a = b.
Proof.
  split; [|intros ->; apply eqb_refl].
  revert b; induction a as [|x a IH]; intros [|y b]; simpl;
    try discriminate; auto.
  intros H. apply andb_true_iff in H as [H1 H2].
  apply N.eqb_eq in H1. f_equal; auto.
Qed.

Lemma eqb_neq (a b : pystr) : PyStr.eqb a b = false <-> a <> b.
Proof.
  split.
  - intros H E. apply eqb_eq in E. congruence.
  - intros H. destruct (PyStr.eqb a b) eqn:E; [|reflexivity].
    apply eqb_eq in E. contradiction.
Qed.

(** ** The LLM gateway *)

(** C3: with the stub provider, [chat(X)] returns ["[stub] " + X], whatever
    the world and the runtime are, so that two calls agree. *)
Theorem chat_stub (rt1 rt2 : Runtime) (c : LLMClient) (X : pystr)
  (L : Type) (l1 l2 : L) (w1 w2 : World) :
  provider c = lit "stub" ->
  fst (fst (chat rt1 c X l1 w1)) = Ok (PStr (lit "[stub] " ++ X))
  /\ fst (fst (chat rt2 c X l2 w2)) = fst (fst (chat rt1 c X l1 w1)).
Proof.
  intros Hp. unfold chat, bind, note_chat. rewrite Hp. split; reflexivity.
Qed.

Lemma chat_stub_witness :
  provider stub_client = lit "stub"
  /\ fst (fst (chat (sample_rt sample_ok PNone) stub_client (lit "X") tt world0))
     = Ok (PStr (lit "[stub] X")).
Proof.
  split; [reflexivity|].
  apply (chat_stub (sample_rt sample_ok PNone) (sample_rt sample_ok PNone)
           stub_client (lit "X") unit tt tt world0 world0).
  reflexivity.
Defined.

(** A client built by [__init__] for groq has its three attributes. *)
Lemma LLMClient_init_groq rt environ c :
  LLMClient_init rt environ = Ok c ->
  provider c = lit "groq" ->
  exists k u m, api_key c = Some k /\ base_url c = Some u /\ model c = Some m.
Proof.
  unfold LLMClient_init. intros H Hp.
  destruct (PyStr.eqb _ (lit "groq")) eqn:E.
  - destruct (environ (lit "GROQ_API_KEY")) as [k|] eqn:Ek; simpl in H.
    + unfold truthy_opt in H. destruct (truthy_str k); simpl in H;
        [|discriminate].
      injection H as <-. simpl. do 3 eexists. repeat split.
    + discriminate.
  - injection H as <-. simpl in Hp. apply eqb_neq in E. contradiction.
Qed.

(** What is raised in the [try] of [chat] and is an [Exception] comes back
    as the sentinel string. *)
Lemma try_except_caught L A (m : M L A) h (l : L) w e l' w' :
  m l w = (Raise e, l', w') -> is_exception e = true ->
  try_except m h l w = h e l' w'.
Proof. intros H He. unfold try_except. now rewrite H, He. Qed.

(** C2: a client built for groq turns a transport or HTTP failure of the
    upstream call into the string ["[LLM error] " + str(e)], which [chat]
    returns; nothing is raised. *)
Theorem chat_groq_failure (rt : Runtime) (environ : pystr -> option pystr)
  (c : LLMClient) (prompt : pystr) (L : Type) (l : L) (w : World) (e : exn) :
  LLMClient_init rt environ = Ok c ->
  provider c = lit "groq" ->
  upstream_failure rt c prompt w e ->
  fst (fst (chat rt c prompt l w))
  = Ok (PStr (lit "[LLM error] " ++ exn_str e)).
Proof.
  intros Hi Hp Hf.
  destruct (LLMClient_init_groq _ _ _ Hi Hp) as (k & u & m & Hk & Hu & Hm).
  unfold chat, bind at 1 2, note_chat. rewrite Hp, Hm. simpl.
  unfold bind at 1 2. rewrite Hk. simpl.
  inversion Hf as [call e' Hc Hr He | call resp msg Hc Hr Hs]; subst;
    unfold chat_request in Hc; rewrite Hm, Hk, Hu in Hc; injection Hc as <-.
  - erewrite try_except_caught; [reflexivity | | exact He].
    unfold chat_upstream, bind, http_send. rewrite Hu. simpl.
    rewrite Hr. reflexivity.
  - erewrite try_except_caught; [reflexivity | | reflexivity].
    unfold chat_upstream, bind at 1 2 3, http_send, raise_for_status.
    rewrite Hu. simpl. rewrite Hr, Hs. reflexivity.
Qed.

Lemma chat_groq_failure_witness :
  fst (fst (chat (sample_rt (Raise connect_error) PNone) groq_client
              (lit "hello") tt world0))
  = Ok (PStr (lit "[LLM error] " ++ exn_str connect_error)).
Proof.
  apply (chat_groq_failure (sample_rt (Raise connect_error) PNone)
           groq_environ groq_client (lit "hello") unit tt world0
           connect_error).
  - vm_compute; reflexivity.
  - vm_compute; reflexivity.
  - destruct (chat_request groq_client (lit "hello")) as [call|] eqn:E;
      [|discriminate].
    apply (@transport_failure _ _ _ _ call connect_error E).
    + reflexivity.
    + reflexivity.
Defined.

(** ** The image handler *)

(** C10: with neither [image_url] nor [image_base64], [analyze_image]
    returns the error ["No image provided"] with the one step recorded so
    far, and the gateway is not called: the record of prompts and the record
    of requests are as before. *)
Theorem analyze_image_no_image (rt : Runtime) (llm : LLMClient)
  (context : option pystr) (l : Locals) (w : World) :
  exists s1 l' w',
    analyze_image rt llm None None context l w
    = (Ok [ (lit "error", vstr (lit "No image provided"));
            (lit "reasoning", Steps [s1]) ], l', w')
    /\ step_number s1 = 1%Z
    /\ llm_log w' = llm_log w /\ net_log w' = net_log w.
Proof.
  do 3 eexists. split; [reflexivity|]. repeat split.
Qed.

(** ** The ticket-tracker gateway *)

(** Credentials that are missing put the gateway in mock mode. *)
Lemma JiraClient_init_mock environ :
  environ (lit "JIRA_URL") = None \/ environ (lit "JIRA_EMAIL") = None
  \/ environ (lit "JIRA_API_TOKEN") = None ->
  mock_mode (JiraClient_init environ) = true.
Proof.
  unfold JiraClient_init, getenv_default.
  intros [H | [H | H]]; rewrite H; simpl.
  - reflexivity.
  - now rewrite andb_false_r.
  - now rewrite andb_false_r.
Qed.

(** C7: in mock mode [get_project_issues] returns three records, with the
    statuses Done, In Progress and To Do, and [create_task] returns a record
    with [mock] true whose key is the project key, a dash and the hash of the
    summary modulo 1000; both leave the world, and so the record of network
    requests, as it was. *)
Theorem jira_mock_mode (rt : Runtime) (j : JiraClient)
  (summary description issue_type : pystr) (max_results : Z)
  (L : Type) (l : L) (w : World) :
  mock_mode j = true ->
  (exists i1 i2 i3,
      get_project_issues rt j max_results l w = (Ok (PList [i1; i2; i3]), l, w)
      /\ issue_status i1 = Some (PStr (lit "Done"))
      /\ issue_status i2 = Some (PStr (lit "In Progress"))
      /\ issue_status i3 = Some (PStr (lit "To Do")))
  /\ (exists d,
         create_task rt j summary description issue_type l w = (Ok d, l, w)
         /\ dict_get (lit "mock") d = Some (PBool true)
         /\ dict_get (lit "issue_key") d
            = Some (PStr (project_key j ++ lit "-"
                            ++ str_of_Z (rt_hash rt summary mod 1000)))).
Proof.
  intros Hm. unfold get_project_issues, create_task. rewrite Hm. split.
  - do 3 eexists. split; [reflexivity|]. repeat split.
  - eexists. split; [reflexivity|]. split; reflexivity.
Qed.

Lemma jira_mock_mode_witness :
  mock_mode mock_jira = true
  /\ exists d,
       create_task (sample_rt sample_ok PNone) mock_jira (lit "Ship it")
         (lit "soon") (lit "Task") tt world0 = (Ok d, tt, world0)
       /\ dict_get (lit "mock") d = Some (PBool true)
       /\ dict_get (lit "issue_key") d
          = Some (PStr (project_key mock_jira ++ lit "-"
                          ++ str_of_Z (rt_hash (sample_rt sample_ok PNone)
                                         (lit "Ship it") mod 1000))).
Proof.
  split; [reflexivity|].
  apply (jira_mock_mode (sample_rt sample_ok PNone) mock_jira
           (lit "Ship it") (lit "soon") (lit "Task") 50 unit tt world0).
  reflexivity.
Defined.

(** The key of the sample: the project key and the hash of the summary. *)
Example mock_key_sample :
  project_key mock_jira ++ lit "-"
    ++ str_of_Z (rt_hash (sample_rt sample_ok PNone) (lit "Ship it") mod 1000)
  = lit "PROJ-7".
Proof. vm_compute. reflexivity. Qed.

(** ** The planning handler *)

(** On ASCII text [str.lower] is the ASCII lower-casing. *)
Lemma lower_go_ascii table sigma (before s : pystr) :
  (forall c, (c < 128)%N -> table c = [ascii_lower c]) ->
  forallb is_ascii s = true ->
  lower_go table sigma before s = map ascii_lower s.
Proof.
  intros Ht. revert before.
  induction s as [|c s IH]; intros before Hs; simpl in *; [reflexivity|].
  apply andb_true_iff in Hs as [Hc Hs]. unfold is_ascii in Hc.
  apply N.ltb_lt in Hc.
  replace (c =? 931)%N with false by (symmetry; apply N.eqb_neq; lia).
  rewrite (Ht c Hc), (IH _ Hs). reflexivity.
Qed.

Lemma str_lower_ascii rt (s : pystr) :
  (forall c, (c < 128)%N -> rt_to_lower_full rt c = [ascii_lower c]) ->
  forallb is_ascii s = true ->
  str_lower rt s = map ascii_lower s.
Proof. intros Ht Hs. apply lower_go_ascii; assumption. Qed.

Lemma list_text_subtasks :
  parse_subtasks (split nl list_text) = [lit "Do A"; lit "Do B"; lit "Do C"].
Proof. vm_compute. reflexivity. Qed.

Lemma list_text_valid rt :
  (forall c, (c < 128)%N -> rt_to_lower_full rt c = [ascii_lower c]) ->
  _is_invalid_response rt [lit "Do A"; lit "Do B"; lit "Do C"] = false.
Proof.
  intros Ht. unfold _is_invalid_response.
  rewrite (str_lower_ascii rt _ Ht) by (vm_compute; reflexivity).
  vm_compute. reflexivity.
Qed.

(** Running a handler: the monad and the bookkeeping of the locals are
    unfolded, the gateways and the string functions are not. *)
Ltac run_handler :=
  cbv beta iota zeta delta
    [bind ret raise lift call try_except try_catch get_locals set_locals
     assign_reasoning assign_jira_issues read_reasoning read_jira_issues
     extend_reasoning step new_step utcnow append_jira_issue];
  cbn [reasoning jira_issues clock net_log llm_log].

Ltac run_handler_in H :=
  cbv beta iota zeta delta
    [bind ret raise lift call try_except try_catch get_locals set_locals
     assign_reasoning assign_jira_issues read_reasoning read_jira_issues
     extend_reasoning step new_step utcnow append_jira_issue] in H;
  cbn [reasoning jira_issues clock net_log llm_log] in H.

(** C4: when the LLM call returns the three numbered lines, [plan] returns
    the three subtasks without their numbers. *)
Theorem plan_numbered_list (rt : Runtime) (llm : LLMClient)
  (description : pystr) (l : Locals) (w : World) :
  (forall c, (c < 128)%N -> rt_to_lower_full rt c = [ascii_lower c]) ->
  (forall (l0 : Locals) (w0 : World), exists w1,
      chat rt llm (plan_prompt description) l0 w0
      = (Ok (PStr list_text), l0, w1)) ->
  exists r l' w',
    plan rt llm description l w = (Ok r, l', w')
    /\ dict_get (lit "subtasks") r
       = Some (vstrs [lit "Do A"; lit "Do B"; lit "Do C"]).
Proof.
  intros Ht Hc. unfold plan. run_handler.
  match goal with
  | |- context [chat rt llm _ ?l0 ?w0] =>
    destruct (Hc l0 w0) as [w1 Hw]; rewrite Hw
  end.
  unfold method_split. rewrite list_text_subtasks.
  rewrite (list_text_valid rt Ht).
  do 3 eexists. split; reflexivity.
Qed.

Lemma plan_numbered_list_witness :
  exists r l' w',
    plan (sample_rt sample_ok (PStr list_text)) groq_client (lit "Ship it")
      no_locals world0 = (Ok r, l', w')
    /\ dict_get (lit "subtasks") r
       = Some (vstrs [lit "Do A"; lit "Do B"; lit "Do C"]).
Proof.
  apply (plan_numbered_list (sample_rt sample_ok (PStr list_text))
           groq_client (lit "Ship it") no_locals world0).
  - intros c _. reflexivity.
  - intros l0 w0. eexists. cbv. reflexivity.
Defined.

(** C5, where the code departs from it: the stub provider echoes the prompt
    behind ["[stub] "]; when the description has a line that looks like a
    list item, that line alone is parsed as the subtasks, the check finds no
    indicator in it, and [plan] returns it in place of the fallback list. *)
Theorem plan_stub_echo_undetected (rt : Runtime) (l : Locals) (w : World) :
  (forall c, (c < 128)%N -> rt_to_lower_full rt c = [ascii_lower c]) ->
  let description := lit "1. Build the thing" in
  (forall (l0 : Locals) (w0 : World),
      fst (fst (chat rt stub_client (plan_prompt description) l0 w0))
      = Ok (PStr (lit "[stub] " ++ plan_prompt description)))
  /\ _is_invalid_response rt
       (parse_subtasks (split nl (lit "[stub] " ++ plan_prompt description)))
     = false
  /\ exists r l' w',
       plan rt stub_client description l w = (Ok r, l', w')
       /\ dict_get (lit "subtasks") r = Some (vstrs [lit "Build the thing"])
       /\ dict_get (lit "subtasks") r <> Some (vstrs fallback_subtasks).
Proof.
  intros Ht description.
  assert (Hp : parse_subtasks
                 (split nl (lit "[stub] " ++ plan_prompt description))
               = [lit "Build the thing"]) by (vm_compute; reflexivity).
  assert (Hv : _is_invalid_response rt [lit "Build the thing"] = false).
  { unfold _is_invalid_response.
    rewrite (str_lower_ascii rt _ Ht) by (vm_compute; reflexivity).
    vm_compute. reflexivity. }
  split; [reflexivity|]. split; [rewrite Hp; exact Hv|].
  unfold plan. run_handler. unfold chat. run_handler. unfold note_chat.
  change (PyStr.eqb (provider stub_client) (lit "groq")) with false.
  change (PyStr.eqb (provider stub_client) (lit "stub")) with true.
  cbv beta iota. unfold method_split. fold description. rewrite Hp, Hv.
  do 3 eexists. split; [reflexivity|]. split; [reflexivity|].
  vm_compute. discriminate.
Qed.

Lemma plan_stub_echo_undetected_witness :
  exists r l' w',
    plan (sample_rt sample_ok PNone) stub_client (lit "1. Build the thing")
      no_locals world0 = (Ok r, l', w')
    /\ dict_get (lit "subtasks") r = Some (vstrs [lit "Build the thing"])
    /\ dict_get (lit "subtasks") r <> Some (vstrs fallback_subtasks).
Proof.
  apply (plan_stub_echo_undetected (sample_rt sample_ok PNone) no_locals
           world0).
  intros c _. reflexivity.
Defined.

(** *** Where the stub echo is detected

    When no line of the response looks like a list item, the first lines of
    the response stand for the subtasks, the sentinel is among them, and the
    fallback list is returned. *)

Lemma dropwhile_app f (a b : pystr) :
  exists a', dropwhile f (a ++ b) = a' ++ dropwhile f b
             \/ dropwhile f (a ++ b) = a' ++ b.
Proof.
  induction a as [|c a IH]; simpl.
  - exists []. now left.
  - destruct (f c).
    + exact IH.
    + exists (c :: a). now right.
Qed.

(** Stripping on the right keeps a prefix that ends in a character that is
    no space. *)
Lemma rstrip_keeps_prefix (q : pystr) (c : N) (u : pystr) :
  isspace c = false ->
  exists u', rstrip ((q ++ [c]) ++ u) = (q ++ [c]) ++ u'.
Proof.
  intros Hc. unfold rstrip. rewrite rev_app_distr.
  assert (Hr : rev (q ++ [c]) = c :: rev q)
    by (rewrite rev_app_distr; reflexivity).
  rewrite Hr.
  assert (Hk : forall a', rev (a' ++ c :: rev q) = (q ++ [c]) ++ rev a').
  { intros a'. rewrite rev_app_distr. simpl. now rewrite rev_involutive. }
  destruct (dropwhile_app isspace (rev u) (c :: rev q)) as [a' [H | H]];
    rewrite H; [simpl; rewrite Hc|]; rewrite Hk; eexists; reflexivity.
Qed.

(** The first piece of a split carries what was read before it. *)
Lemma split_go_first (s cur : pystr) :
  exists t rest, split_go nl 0 cur s = (rev cur ++ t) :: rest.
Proof.
  revert cur. induction s as [|c s IH]; intros cur.
  - exists [], []. simpl. now rewrite app_nil_r.
  - unfold nl in *. cbn [split_go startswith].
    destruct (10 =? c)%N; cbn [andb length Nat.pred].
    + exists [], (split_go [10%N] 0 [] s). now rewrite app_nil_r.
    + destruct (IH (c :: cur)) as (t & rest & ->). simpl.
      exists (c :: t), rest. now rewrite <- app_assoc.
Qed.

Lemma join_first sep (x : pystr) (r : list pystr) :
  exists z, join sep (x :: r) = x ++ z.
Proof.
  destruct r as [|y r]; simpl.
  - exists []. now rewrite app_nil_r.
  - eexists. reflexivity.
Qed.

Lemma lower_go_ascii_prefix table sigma (q z before : pystr) :
  (forall c, (c < 128)%N -> table c = [ascii_lower c]) ->
  forallb is_ascii q = true ->
  exists z', lower_go table sigma before (q ++ z) = map ascii_lower q ++ z'.
Proof.
  intros Ht. revert before.
  induction q as [|c q IH]; intros before Hq; simpl in *.
  - eexists. reflexivity.
  - apply andb_true_iff in Hq as [Hc Hq]. unfold is_ascii in Hc.
    apply N.ltb_lt in Hc.
    replace (c =? 931)%N with false by (symmetry; apply N.eqb_neq; lia).
    rewrite (Ht c Hc). destruct (IH (c :: before) Hq) as [z' ->].
    eexists. reflexivity.
Qed.

Lemma startswith_prefix (p z : pystr) : startswith p (p ++ z) = true.
Proof. induction p; simpl; [reflexivity|]. now rewrite N.eqb_refl. Qed.

Lemma contains_prefix (p z : pystr) : contains p (p ++ z) = true.
Proof.
  destruct (p ++ z) eqn:E; simpl; rewrite <- E, startswith_prefix;
    reflexivity.
Qed.

(** A response behind the sentinel, with no line that looks like a list
    item, is found invalid. *)
Lemma stub_response_invalid rt (X : pystr) :
  (forall c, (c < 128)%N -> rt_to_lower_full rt c = [ascii_lower c]) ->
  _is_invalid_response rt (first_lines (split nl (lit "[stub] " ++ X)))
  = true.
Proof.
  intros Ht. unfold split.
  change (lit "[stub] ") with [91; 115; 116; 117; 98; 93; 32]%N.
  cbn [app split_go nl startswith N.eqb Pos.eqb andb].
  destruct (split_go_first X [32; 93; 98; 117; 116; 115; 91]%N)
    as (t & rest & ->).
  cbn [rev app]. unfold first_lines.
  assert (Hs : exists u,
             strip ([91; 115; 116; 117; 98; 93; 32]%N ++ t)
             = [91; 115; 116; 117; 98; 93]%N ++ u).
  { unfold strip, lstrip. cbn [app dropwhile].
    change (isspace 91) with false. cbv iota.
    apply (rstrip_keeps_prefix [91; 115; 116; 117; 98]%N 93 (32%N :: t)).
    reflexivity. }
  destruct Hs as [u Hs]. cbn [filter]. cbn [app] in Hs. rewrite Hs.
  cbn [app truthy_str map]. rewrite Hs. cbn [app slice_to firstn].
  unfold _is_invalid_response.
  match goal with
  | |- context [join ?sep (?x :: ?r)] =>
    destruct (join_first sep x r) as [z ->]
  end.
  unfold str_lower, lower.
  destruct (lower_go_ascii_prefix (rt_to_lower_full rt) (rt_final_sigma rt)
              [91; 115; 116; 117; 98; 93]%N (u ++ z) [] Ht eq_refl)
    as [z' Hz].
  change ((91 :: 115 :: 116 :: 117 :: 98 :: 93 :: u) ++ z)%N
    with ([91; 115; 116; 117; 98; 93]%N ++ u ++ z).
  rewrite Hz. apply existsb_exists. exists (lit "[stub]").
  split; [vm_compute; tauto|]. apply contains_prefix.
Qed.

(** The planning handler then returns the fallback list. *)
Lemma plan_stub_fallback rt llm description (X : pystr) l w :
  (forall c, (c < 128)%N -> rt_to_lower_full rt c = [ascii_lower c]) ->
  (forall (l0 : Locals) (w0 : World), exists w1,
      chat rt llm (plan_prompt description) l0 w0
      = (Ok (PStr (lit "[stub] " ++ X)), l0, w1)) ->
  parse_subtasks (split nl (lit "[stub] " ++ X)) = [] ->
  exists r l' w',
    plan rt llm description l w = (Ok r, l', w')
    /\ dict_get (lit "subtasks") r = Some (vstrs fallback_subtasks).
Proof.
  intros Ht Hc Hp. unfold plan. run_handler.
  match goal with
  | |- context [chat rt llm _ ?l0 ?w0] =>
    destruct (Hc l0 w0) as [w1 Hw]; rewrite Hw
  end.
  unfold method_split. rewrite Hp. cbv iota.
  rewrite (stub_response_invalid rt X Ht).
  do 3 eexists. split; reflexivity.
Qed.

(** ** The risk handler *)

Lemma risk_loop rt (lines acc : list pystr) :
  fold_left (risk_step rt) lines acc
  = acc ++ map (fun line => clean_risk_line (strip line))
               (filter (kept_line rt) lines).
Proof.
  revert acc. induction lines as [|line lines IH]; intros acc; simpl.
  - now rewrite app_nil_r.
  - rewrite IH. unfold risk_step, kept_line.
    destruct (looks_like_risk rt (strip line)); simpl; [|reflexivity].
    destruct (20 <? length (clean_risk_line (strip line)))%nat; simpl;
      [|reflexivity].
    now rewrite <- app_assoc.
Qed.

Lemma In_slice_to {A} (n : nat) (l : list A) (x : A) :
  In x (slice_to n l) -> In x l.
Proof.
  intros H. rewrite <- (firstn_skipn n l). apply in_or_app. now left.
Qed.

Lemma detect_risks_length rt lines : length (detect_risks rt lines) <= 10.
Proof. unfold detect_risks, slice_to. apply firstn_le_length. Qed.

Lemma detect_risks_In rt lines e :
  In e (detect_risks rt lines) ->
  exists line,
    In line lines
    /\ looks_like_risk rt (strip line) = true
    /\ e = clean_risk_line (strip line)
    /\ 20 < length e.
Proof.
  unfold detect_risks. intros H.
  apply In_slice_to in H. rewrite risk_loop in H. simpl in H.
  apply in_map_iff in H as (line & He & Hl).
  apply filter_In in Hl as [Hl Hk]. unfold kept_line in Hk.
  apply andb_true_iff in Hk as [Hr Hn]. apply Nat.ltb_lt in Hn.
  exists line. subst e. auto.
Qed.

(** C6: when the LLM call returns an analysis text, the [detected_risks] of
    the result are at most ten; each is the cleaned form of a stripped line
    that carries a marker or the word risk, and is longer than 20 characters;
    so a line whose cleaned text is shorter than 20 characters is not among
    them. *)
Theorem analyze_risks_detected (rt : Runtime) (llm : LLMClient)
  (feature analysis : pystr) (l : Locals) (w : World) :
  (forall (l0 : Locals) (w0 : World), exists w1,
      chat rt llm (risks_prompt feature) l0 w0
      = (Ok (PStr analysis), l0, w1)) ->
  exists r l' w' detected_risks,
    analyze_risks rt llm feature l w = (Ok r, l', w')
    /\ dict_get (lit "detected_risks") r = Some (vstrs detected_risks)
    /\ length detected_risks <= 10
    /\ (forall e, In e detected_risks ->
          exists line,
            In line (split nl analysis)
            /\ looks_like_risk rt (strip line) = true
            /\ e = clean_risk_line (strip line)
            /\ 20 < length e)
    /\ (forall line, In line (split nl analysis) ->
          length (clean_risk_line (strip line)) < 20 ->
          ~ In (clean_risk_line (strip line)) detected_risks).
Proof.
  intros Hc. unfold analyze_risks. run_handler.
  match goal with
  | |- context [chat rt llm _ ?l0 ?w0] =>
    destruct (Hc l0 w0) as [w1 Hw]; rewrite Hw
  end.
  unfold method_split, py_len.
  do 3 eexists. exists (detect_risks rt (split nl analysis)).
  split; [reflexivity|]. split; [reflexivity|].
  split; [apply detect_risks_length|].
  split; [intros e; apply detect_risks_In|].
  intros line _ Hshort Hin.
  apply detect_risks_In in Hin as (line' & _ & _ & He & Hlong).
  lia.
Qed.

Example exactly_twenty :
  length (clean_risk_line (strip (lit "- exactly twenty chars"))) = 20.
Proof. vm_compute. reflexivity. Qed.

(** Of the sample, only the first line is kept: the second is short, the
    third has exactly 20 characters left, the fourth does not look like a
    risk. *)
Example detect_risks_sample :
  detect_risks (sample_rt sample_ok PNone) (split nl sample_analysis)
  = [lit "Token theft through a leaked refresh token"].
Proof. vm_compute. reflexivity. Qed.

Lemma analyze_risks_detected_witness :
  exists r l' w' detected_risks,
    analyze_risks (sample_rt sample_ok (PStr sample_analysis)) groq_client
      (lit "login") no_locals world0 = (Ok r, l', w')
    /\ dict_get (lit "detected_risks") r = Some (vstrs detected_risks)
    /\ length detected_risks <= 10.
Proof.
  destruct (analyze_risks_detected (sample_rt sample_ok (PStr sample_analysis))
              groq_client (lit "login") sample_analysis no_locals world0)
    as (r & l' & w' & d & H1 & H2 & H3 & _).
  - intros l0 w0. eexists. cbv. reflexivity.
  - exists r, l', w', d. auto.
Defined.


(** ** Gateways leave the locals of the handler alone *)

Section Keeps.
Context {L : Type}.

Lemma keeps_ret A (a : A) : keeps_locals (ret (L:=L) a).
Proof. intros l w. reflexivity. Qed.

Lemma keeps_raise A e : keeps_locals (raise (L:=L) (A:=A) e).
Proof. intros l w. reflexivity. Qed.

Lemma keeps_lift A (r : Res A) : keeps_locals (lift (L:=L) r).
Proof. intros l w. reflexivity. Qed.

Lemma keeps_bind A B (m : M L A) (k : A -> M L B) :
  keeps_locals m -> (forall a, keeps_locals (k a)) -> keeps_locals (bind m k).
Proof.
  intros Hm Hk l w. unfold bind. specialize (Hm l w).
  destruct (m l w) as [[[a|e] l1] w1]; simpl in Hm; subst l1.
  - apply Hk.
  - reflexivity.
Qed.

Lemma keeps_try_catch A (m : M L A) h :
  keeps_locals m -> (forall e k, h e = Some k -> keeps_locals k) ->
  keeps_locals (try_catch m h).
Proof.
  intros Hm Hh l w. unfold try_catch. specialize (Hm l w).
  destruct (m l w) as [[[a|e] l1] w1]; simpl in Hm; subst l1.
  - reflexivity.
  - destruct (h e) as [k|] eqn:E; [apply (Hh e k E) | reflexivity].
Qed.

Lemma keeps_try_except A (m : M L A) h :
  keeps_locals m -> (forall e, keeps_locals (h e)) ->
  keeps_locals (try_except m h).
Proof.
  intros Hm Hh l w. unfold try_except. specialize (Hm l w).
  destruct (m l w) as [[[a|e] l1] w1]; simpl in Hm; subst l1.
  - reflexivity.
  - destruct (is_exception e); [apply Hh | reflexivity].
Qed.

Lemma keeps_http_send rt c : keeps_locals (http_send (L:=L) rt c).
Proof. intros l w. reflexivity. Qed.

Lemma keeps_raise_for_status rt r :
  keeps_locals (raise_for_status (L:=L) rt r).
Proof.
  unfold raise_for_status. destruct (rt_status_error rt r);
    [apply keeps_raise | apply keeps_ret].
Qed.

Lemma keeps_response_json rt r : keeps_locals (response_json (L:=L) rt r).
Proof.
  unfold response_json. destruct (rt_json rt r);
    [apply keeps_raise | apply keeps_ret].
Qed.

Lemma keeps_client_attr o n : keeps_locals (client_attr (L:=L) o n).
Proof.
  unfold client_attr. destruct o; [apply keeps_ret | apply keeps_raise].
Qed.

Lemma keeps_note_chat p : keeps_locals (note_chat (L:=L) p).
Proof. intros l w. reflexivity. Qed.

Lemma keeps_basic_auth j : keeps_locals (basic_auth (L:=L) j).
Proof.
  unfold basic_auth. destruct (email j), (token j);
    first [apply keeps_ret | apply keeps_raise].
Qed.

End Keeps.

Ltac keeps :=
  repeat first
    [ apply keeps_ret | apply keeps_raise | apply keeps_lift
    | apply keeps_http_send | apply keeps_raise_for_status
    | apply keeps_response_json | apply keeps_client_attr
    | apply keeps_note_chat | apply keeps_basic_auth
    | apply keeps_bind; [|intros]
    | apply keeps_try_except; [|intros]
    | match goal with
      | |- keeps_locals (if ?b then _ else _) => destruct b
      end ].

Lemma keeps_chat L rt c prompt : keeps_locals (chat (L:=L) rt c prompt).
Proof. unfold chat, chat_upstream. keeps. Qed.

Lemma keeps_create_task L rt j s d t :
  keeps_locals (create_task (L:=L) rt j s d t).
Proof.
  unfold create_task. keeps.
  apply keeps_try_catch; [keeps|].
  intros e k Hk. destruct (exn_class e); inversion Hk; keeps.
Qed.

Lemma keeps_get_project_issues L rt j n :
  keeps_locals (get_project_issues (L:=L) rt j n).
Proof. unfold get_project_issues. keeps. Qed.

(** The outcome of a gateway call, with the locals as they were. *)
Lemma keeps_run L A (m : M L A) (l : L) (w : World) :
  keeps_locals m -> exists r w', m l w = (r, l, w').
Proof.
  intros H. specialize (H l w). destruct (m l w) as [[r l1] w1].
  simpl in H. subst l1. eauto.
Qed.

(** What [try_except] raises is no [Exception], when its handler raises
    nothing. *)
Lemma chat_raises_no_exception L rt environ c prompt (l : L) w e l' w' :
  LLMClient_init rt environ = Ok c ->
  chat rt c prompt l w = (Raise e, l', w') -> is_exception e = false.
Proof.
  intros Hi. unfold chat, bind at 1 2, note_chat.
  destruct (PyStr.eqb (provider c) (lit "groq")) eqn:Eg.
  - apply eqb_eq in Eg.
    destruct (LLMClient_init_groq _ _ _ Hi Eg) as (k & u & m & Hk & Hu & Hm).
    rewrite Hm, Eg. simpl. unfold bind at 1 2. rewrite Hk. simpl.
    unfold try_except.
    destruct (chat_upstream _ _ _ _ _ _) as [[[a|e1] l1] w1].
    + discriminate.
    + destruct (is_exception e1) eqn:E1; simpl; [discriminate|].
      intros H. injection H as <- _ _. exact E1.
  - simpl. destruct (PyStr.eqb (provider c) (lit "stub")); simpl;
      discriminate.
Qed.

(** ** The digest handler *)

Lemma zpad_digits_range (w : nat) (lo n y : N) :
  forallb (fun k => all_digits w (zpad w (N.of_nat k)))
          (seq (N.to_nat lo) (N.to_nat n)) = true ->
  (lo <= y < lo + n)%N ->
  all_digits w (zpad w y) = true.
Proof.
  intros H Hy. rewrite forallb_forall in H.
  rewrite <- (N2Nat.id y). apply H. apply in_seq. lia.
Qed.

Lemma zpad4_year (y : N) :
  (1000 <= y <= 9999)%N -> all_digits 4 (zpad 4 y) = true.
Proof.
  intros H. apply (zpad_digits_range 4 1000 9000); [|lia].
  vm_compute. reflexivity.
Qed.

Lemma zpad2_small (y : N) :
  (y <= 99)%N -> all_digits 2 (zpad 2 y) = true.
Proof.
  intros H. apply (zpad_digits_range 2 0 100); [|lia].
  vm_compute. reflexivity.
Qed.

(** [strftime("%Y-%m-%d")] of a plain date has the shape YYYY-MM-DD. *)
Lemma strftime_Ymd_shape (d : datetime) :
  plain_date d -> is_Ymd (strftime_Ymd d) = true.
Proof.
  intros (Hy & Hm & Hd). unfold strftime_Ymd.
  pose proof (zpad4_year (dt_year d) Hy) as H4.
  assert (H2 : all_digits 2 (zpad 2 (dt_month d)) = true)
    by (apply zpad2_small; lia).
  assert (H3 : all_digits 2 (zpad 2 (dt_day d)) = true)
    by (apply zpad2_small; lia).
  destruct (zpad 4 (dt_year d)) as [|y1 [|y2 [|y3 [|y4 [|]]]]];
    try discriminate.
  destruct (zpad 2 (dt_month d)) as [|m1 [|m2 [|]]]; try discriminate.
  destruct (zpad 2 (dt_day d)) as [|d1 [|d2 [|]]]; try discriminate.
  unfold all_digits in *. simpl in *.
  repeat match goal with
         | H : _ && _ = true |- _ => apply andb_true_iff in H as [? ?]
         end.
  change (lit "-") with [45%N]. simpl.
  repeat match goal with H : is_digit _ = true |- _ => rewrite H end.
  reflexivity.
Qed.

(** C8, where the code departs from it: without a date, the [date] of the
    result is the current UTC date, of the shape YYYY-MM-DD, but the
    [auto_date] of the first step is false, since [date] has been assigned
    by the time it is compared with [None]. *)
Theorem daily_digest_auto_date (rt : Runtime) (environ : pystr -> option pystr)
  (llm : LLMClient) (l : Locals) (w : World) :
  LLMClient_init rt environ = Ok llm ->
  plain_date (rt_utcnow rt (clock w)) ->
  match daily_digest rt llm None l w with
  | (Ok r, _, _) =>
    exists date s rest,
      dict_get (lit "date") r = Some (vstr date)
      /\ date = strftime_Ymd (rt_utcnow rt (clock w))
      /\ is_Ymd date = true
      /\ reasoning_of r = s :: rest
      /\ input_data s = Some [ (lit "date", PStr date);
                               (lit "auto_date", PBool false) ]
  | (Raise e, _, _) => is_exception e = false
  end.
Proof.
  intros Hi Hd. pose proof (strftime_Ymd_shape _ Hd) as Hs.
  unfold daily_digest. cbn [truthy_opt negb]. run_handler.
  cbn [opt_str is_none py_str].
  match goal with
  | |- context [chat rt llm ?p ?l0 ?w0] =>
    destruct (keeps_run _ _ (chat rt llm p) l0 w0 (keeps_chat _ rt llm p))
      as (r1 & w1 & Hc); rewrite Hc
  end.
  destruct r1 as [v|e].
  - destruct v; cbn [py_len is_exception type_error exn_class];
      do 3 eexists; (split; [reflexivity|]); (split; [reflexivity|]);
      (split; [exact Hs|]); split; reflexivity.
  - destruct (is_exception e) eqn:He.
    + rewrite (chat_raises_no_exception _ _ _ _ _ _ _ _ _ _ Hi Hc) in He.
      discriminate.
    + exact He.
Qed.

Lemma daily_digest_auto_date_witness :
  match daily_digest (sample_rt sample_ok PNone) stub_client None no_locals
          world0 with
  | (Ok r, _, _) =>
    exists date s rest,
      dict_get (lit "date") r = Some (vstr date)
      /\ date = strftime_Ymd (rt_utcnow (sample_rt sample_ok PNone)
                                (clock world0))
      /\ is_Ymd date = true
      /\ reasoning_of r = s :: rest
      /\ input_data s = Some [ (lit "date", PStr date);
                               (lit "auto_date", PBool false) ]
  | (Raise e, _, _) => is_exception e = false
  end.
Proof.
  apply (daily_digest_auto_date (sample_rt sample_ok PNone) (fun _ => None)
           stub_client no_locals world0).
  - vm_compute. reflexivity.
  - unfold plain_date. cbn. lia.
Defined.

(** The date of the sample run. *)
Example daily_digest_sample_date :
  strftime_Ymd (rt_utcnow (sample_rt sample_ok PNone) (clock world0))
  = lit "2024-05-07".
Proof. vm_compute. reflexivity. Qed.

(** ** Step numbers *)

(** Case analysis on what a hypothesis about a run still branches on. *)
Ltac split_run H :=
  repeat match type of H with
         | context [match ?x with _ => _ end] =>
           lazymatch x with
           | context [match _ with _ => _ end] => fail
           | _ => destruct x eqn:?
           end
         | context [if ?x then _ else _] =>
           lazymatch x with
           | context [if _ then _ else _] => fail
           | _ => destruct x eqn:?
           end
         end.

(** A gateway call inside a run is replaced by its outcome. *)
Ltac run_chat H r w E :=
  match type of H with
  | context [chat ?rt ?llm ?p ?l0 ?w0] =>
    destruct (keeps_run _ _ (chat rt llm p) l0 w0 (keeps_chat _ rt llm p))
      as (r & w & E); rewrite E in H
  end.

(** The two shapes of what [plan] returns. *)
Lemma plan_shape rt llm description l w r l' w' :
  plan rt llm description l w = (Ok r, l', w') ->
  exists steps,
    (map step_number steps = [1; 2; 4]%Z
     /\ exists subtasks,
         r = [ (lit "task", vstr description);
               (lit "subtasks", vstrs subtasks);
               (lit "reasoning", Steps steps) ])
    \/ (map step_number steps = [1; 2; 5]%Z
        /\ exists msg,
            r = [ (lit "task", vstr description);
                  (lit "error", vstr msg);
                  (lit "reasoning", Steps steps);
                  (lit "fallback_subtasks",
                   vstrs [lit "Manual planning required"]) ]).
Proof.
  intros H. unfold plan in H. run_handler_in H.
  run_chat H r1 w1 E.
  destruct r1 as [v|e].
  - destruct v; cbn [method_split is_exception attribute_error exn_class] in H;
      split_run H; injection H as <- _ _; eexists;
      first [ left; split; [|eexists; reflexivity]; reflexivity
            | right; split; [|eexists; reflexivity]; reflexivity ].
  - destruct (is_exception e); [|discriminate].
    injection H as <- _ _. eexists. right.
    split; [|eexists; reflexivity]. reflexivity.
Qed.

Ltac run_issues H r w E :=
  match type of H with
  | context [get_project_issues ?rt ?j ?n ?l0 ?w0] =>
    destruct (keeps_run _ _ (get_project_issues rt j n) l0 w0
                (keeps_get_project_issues _ rt j n))
      as (r & w & E); rewrite E in H
  end.

Ltac run_create_task H r w E :=
  match type of H with
  | context [create_task ?rt ?j ?s ?d ?t ?l0 ?w0] =>
    destruct (keeps_run _ _ (create_task rt j s d t) l0 w0
                (keeps_create_task _ rt j s d t))
      as (r & w & E); rewrite E in H
  end.

Lemma keeps_count_statuses issues :
  forall counts, keeps_locals (count_statuses issues counts).
Proof.
  induction issues as [|issue rest IH]; intros counts; simpl; keeps.
  apply IH.
Qed.

(** The loop over the subtasks appends to [jira_issues] only. *)
Lemma create_subtasks_reasoning rt jira description subtasks :
  forall i l w,
    reasoning (snd (fst (create_subtasks rt jira description i subtasks l w)))
    = reasoning l.
Proof.
  induction subtasks as [|subtask rest IH]; intros i l w; simpl.
  - reflexivity.
  - unfold bind at 1.
    match goal with
    | |- context [create_task ?rt ?j ?s ?d ?t l w] =>
      destruct (keeps_run _ _ (create_task rt j s d t) l w
                  (keeps_create_task _ rt j s d t)) as (r & w1 & E);
        rewrite E
    end.
    destruct r as [issue|e]; [|reflexivity].
    unfold bind at 1. unfold append_jira_issue at 1. run_handler.
    rewrite IH. reflexivity.
Qed.

Ltac from_1 H :=
  split_run H; try discriminate; injection H as <- _ _; reflexivity.

Lemma analyze_risks_trace rt llm feature l w r l' w' :
  analyze_risks rt llm feature l w = (Ok r, l', w') ->
  numbered_from_1 (step_numbers r) = true.
Proof.
  intros H. unfold analyze_risks in H. run_handler_in H.
  run_chat H r1 w1 E.
  destruct r1 as [v|e];
    [destruct v;
     cbn [method_split py_len is_exception attribute_error type_error
          exn_class] in H|];
    from_1 H.
Qed.

Lemma daily_digest_trace rt llm date l w r l' w' :
  daily_digest rt llm date l w = (Ok r, l', w') ->
  numbered_from_1 (step_numbers r) = true.
Proof.
  intros H. unfold daily_digest in H.
  destruct (negb (truthy_opt date)); run_handler_in H;
    run_chat H r1 w1 E;
    (destruct r1 as [v|e];
     [destruct v;
      cbn [py_len is_exception type_error exn_class] in H|]);
    from_1 H.
Qed.

Lemma analyze_image_trace rt llm u b c l w r l' w' :
  analyze_image rt llm u b c l w = (Ok r, l', w') ->
  numbered_from_1 (step_numbers r) = true.
Proof.
  intros H. unfold analyze_image in H.
  destruct (negb (truthy_opt u) && negb (truthy_opt b)); run_handler_in H.
  - injection H as <- _ _. reflexivity.
  - run_chat H r1 w1 E.
    destruct r1 as [v|e];
      [destruct v; cbn [py_len type_error] in H|]; from_1 H.
Qed.

Lemma analyze_progress_trace rt llm commits l w r l' w' :
  analyze_progress rt llm commits l w = (Ok r, l', w') ->
  numbered_from_1 (step_numbers r) = true.
Proof.
  intros H. unfold analyze_progress in H. run_handler_in H.
  run_chat H r1 w1 E.
  destruct r1 as [v|e];
    [destruct v;
     cbn [py_len is_exception type_error exn_class] in H|];
    from_1 H.
Qed.

Lemma plan_trace rt llm description l w r l' w' :
  plan rt llm description l w = (Ok r, l', w') ->
  numbered_from_1 (step_numbers r) = true.
Proof.
  intros H. apply plan_shape in H as [steps [[Hn [s ->]] | [Hn [m ->]]]];
    unfold step_numbers;
    match goal with
    | |- context [reasoning_of ?d] =>
      change (reasoning_of d) with steps
    end; rewrite Hn; reflexivity.
Qed.

Lemma jira_velocity_trace rt jira key l w r l' w' :
  jira_velocity rt jira key l w = (Ok r, l', w') ->
  numbered_from_1 (step_numbers r) = true.
Proof.
  intros H. unfold jira_velocity in H. run_handler_in H.
  run_issues H r1 w1 E.
  destruct r1 as [issues|e]; [|from_1 H].
  destruct (py_len issues) as [n|e]; [|from_1 H].
  destruct (n =? 0)%nat; [from_1 H|].
  match type of H with
  | context [count_statuses ?i ?c ?l0 ?w0] =>
    destruct (keeps_run _ _ (count_statuses i c) l0 w0
                (keeps_count_statuses i c)) as (r2 & w2 & E2);
      rewrite E2 in H
  end.
  destruct r2 as [counts|e]; [|from_1 H].
  destruct (sum_done rt counts); from_1 H.
Qed.

(** Dictionary lookups on a dictionary whose keys are literals. *)
Ltac eval_lookups H :=
  repeat match type of H with
         | context [dict_mem ?k ?d] =>
           let b := eval vm_compute in (dict_mem k d) in
           change (dict_mem k d) with b in H
         | context [reasoning_of ?d] =>
           let b := eval cbv [reasoning_of] in (reasoning_of d) in
           let b := eval vm_compute in (dict_get (lit "reasoning") d) in
           change (reasoning_of d)
             with (match b with Some (Steps l) => l | _ => [] end) in H
         end; cbv beta iota in H.

Ltac trace_eq Hn := cbn [map]; rewrite !map_app, Hn; reflexivity.

Lemma plan_with_jira_trace rt llm jira description key l w r l' w' :
  plan_with_jira rt llm jira description key l w = (Ok r, l', w') ->
  exists inner later,
    step_numbers r = (1 :: inner ++ later)%Z
    /\ (inner = [1; 2; 4] \/ inner = [1; 2; 5])%Z
    /\ (later = [2; 3; 4] \/ later = [2; 5] \/ later = [2; 3; 5])%Z.
Proof.
  intros H. unfold plan_with_jira in H. run_handler_in H.
  match type of H with
  | context [plan ?rt ?llm ?d ?l0 ?w0] =>
    destruct (plan rt llm d l0 w0) as [[rp lp] wp] eqn:Ep
  end.
  destruct rp as [pr|e]; [|discriminate].
  apply plan_shape in Ep as [steps [[Hn [s ->]] | [Hn [m ->]]]];
    eval_lookups H; cbn [andb negb] in H; cbv beta iota in H;
    cbn [reasoning jira_issues clock net_log llm_log] in H;
    run_create_task H r1 w1 E1.
  all: destruct r1 as [epic|e]; cbn [reasoning jira_issues] in H.
  all: try match type of H with
       | context [create_subtasks ?rt ?j ?d ?i ?st ?l0 ?w0] =>
         pose proof (create_subtasks_reasoning rt j d st i l0 w0) as Hk;
           destruct (create_subtasks rt j d i st l0 w0) as [[r2 l2] w2];
           cbn [fst snd reasoning] in Hk; destruct l2 as [rs2 js2];
           cbn [reasoning jira_issues] in H, Hk; subst rs2
       end.
  all: split_run H; try discriminate; cbn [reasoning jira_issues] in H;
    injection H as <- _ _; unfold step_numbers;
    match goal with
    | |- context [reasoning_of ?d] =>
      match d with
      | context [Steps ?t] => change (reasoning_of d) with t
      end
    end.
  all: first
    [ exists [1; 2; 4]%Z, [2; 3; 4]%Z; split; [trace_eq Hn|]
    | exists [1; 2; 4]%Z, [2; 5]%Z; split; [trace_eq Hn|]
    | exists [1; 2; 4]%Z, [2; 3; 5]%Z; split; [trace_eq Hn|]
    | exists [1; 2; 5]%Z, [2; 3; 4]%Z; split; [trace_eq Hn|]
    | exists [1; 2; 5]%Z, [2; 5]%Z; split; [trace_eq Hn|]
    | exists [1; 2; 5]%Z, [2; 3; 5]%Z; split; [trace_eq Hn|] ].
  all: split;
    [ first [left; reflexivity | right; reflexivity]
    | first [ left; reflexivity | right; left; reflexivity
            | right; right; reflexivity ] ].
Qed.


(** C9, as amended: the trace that a handler returns is numbered from 1 and
    its numbers never decrease, for every handler but [plan_with_jira]; the
    trace of [plan_with_jira] is its own step 1, then the trace of the inner
    [plan], itself numbered from 1, then its own later steps from 2 on. *)
Theorem step_numbering (rt : Runtime) (i : invocation) (l : Locals)
  (w : World) (r : result) (l' : Locals) (w' : World) :
  invoke rt i l w = (Ok r, l', w') ->
  if is_composite i then composite_trace (step_numbers r)
  else numbered_from_1 (step_numbers r) = true.
Proof.
  destruct i; simpl; intros H.
  - eapply plan_trace; eassumption.
  - apply plan_with_jira_trace in H as (inner & later & -> & Hi & Hl).
    exists inner, later. split; [reflexivity|].
    destruct Hi as [-> | ->]; destruct Hl as [-> | [-> | ->]];
      repeat split.
  - eapply analyze_risks_trace; eassumption.
  - eapply daily_digest_trace; eassumption.
  - eapply analyze_image_trace; eassumption.
  - eapply analyze_progress_trace; eassumption.
  - eapply jira_velocity_trace; eassumption.
Qed.

Lemma step_numbering_witness :
  exists r l' w',
    invoke (sample_rt sample_ok PNone)
      (PlanWithJira stub_client mock_jira (lit "Ship it") None)
      no_locals world0 = (Ok r, l', w')
    /\ composite_trace (step_numbers r).
Proof.
  do 3 eexists. split.
  - cbv. reflexivity.
  - eapply (step_numbering (sample_rt sample_ok PNone)
              (PlanWithJira stub_client mock_jira (lit "Ship it") None)
              no_locals world0).
    cbv. reflexivity.
Defined.

(** C9, as stated, fails on [plan_with_jira]: with the stub provider and the
    tracker in mock mode its trace is numbered 1, 1, 2, 4, 2, 3, 4. *)
Lemma step_numbering_not_monotonic :
  option_map step_numbers
    (returned (invoke (sample_rt sample_ok PNone)
                 (PlanWithJira stub_client mock_jira (lit "Ship it") None)
                 no_locals world0))
  = Some [1; 1; 2; 4; 2; 3; 4]%Z
  /\ monotonic [1; 1; 2; 4; 2; 3; 4]%Z = false.
Proof. split; vm_compute; reflexivity. Qed.

(** ** The dispatch envelope *)

Lemma dict_get_None V (k : pystr) (d : list (pystr * V)) :
  dict_get k d = None <-> ~ In k (dict_keys d).
Proof.
  induction d as [|[k' v] d IH]; simpl.
  - tauto.
  - destruct (PyStr.eqb k k') eqn:E.
    + apply eqb_eq in E. subst k'. split; [discriminate|]. tauto.
    + apply eqb_neq in E. rewrite IH. split.
      * intros H [H1 | H1]; [congruence | contradiction].
      * tauto.
Qed.

(** Registration keeps the names registered before, in their order, and
    adds the new name at the end unless it is there. *)
Lemma register_tool_keys agent n h k :
  In k (dict_keys (tools (register_tool agent n h)))
  <-> k = n \/ In k (dict_keys (tools agent)).
Proof.
  unfold register_tool. simpl. induction (tools agent) as [|[k' v] d IH];
    simpl.
  - intuition congruence.
  - destruct (PyStr.eqb n k') eqn:E; simpl.
    + apply eqb_eq in E. subst k'. intuition congruence.
    + rewrite IH. intuition congruence.
Qed.

(** Where nothing is left to remove, [replace] returns the string. *)
Lemma replace_go_absent old new (s : pystr) :
  contains old s = false -> replace_go old new 0 s = s.
Proof.
  induction s as [|c s IH]; [reflexivity|].
  cbn [contains replace_go]. intros H.
  apply orb_false_iff in H as [H1 H2]. rewrite H1, (IH H2). reflexivity.
Qed.

Lemma startswith_app (p m : pystr) :
  startswith p m = true -> m = p ++ skipn (length p) m.
Proof.
  revert m. induction p as [|a p IH]; intros [|b m]; simpl;
    try discriminate; auto.
  intros H. apply andb_true_iff in H as [H1 H2].
  apply N.eqb_eq in H1. subst b. f_equal. auto.
Qed.

(** The code and the wording of the specification agree on the methods in
    which ["tools/"] occurs in front only, if at all. *)
Lemma replace_strip_agree (m : pystr) :
  contains (lit "tools/") (strip_tools_prefix m) = false ->
  replace (lit "tools/") [] m = strip_tools_prefix m.
Proof.
  unfold strip_tools_prefix, replace. change (lit "tools/") with
    [116; 111; 111; 108; 115; 47]%N.
  destruct (startswith _ m) eqn:E; intros H.
  - pose proof (startswith_app _ _ E) as Hm. cbn [length] in Hm.
    remember (skipn 6 m) as r. rewrite Hm. simpl.
    apply replace_go_absent. exact H.
  - apply replace_go_absent. exact H.
Qed.

(** C1, as amended: the method name is matched after every occurrence of
    ["tools/"] is removed from it; when what is left is no registered name,
    the reply carries ["Unknown tool: "] and that name, and the registered
    names as [available_tools]. *)
Theorem mcp_unknown_tool (rt : Runtime) (agent : MCPAgent) (body : list N)
  (req : MCPRequest) (l : Locals) (w : World) :
  rt_parse_request rt body = Ok req ->
  ~ In (replace (lit "tools/") [] (method req)) (dict_keys (tools agent)) ->
  mcp rt agent body l w
  = (Ok (unknown_tool (replace (lit "tools/") [] (method req))
           (dict_keys (tools agent))), l, w).
Proof.
  intros Hp Hn. unfold mcp. rewrite Hp.
  apply dict_get_None in Hn. change (lit "") with (@nil N).
  rewrite Hn. reflexivity.
Qed.

Lemma mcp_unknown_tool_witness :
  mcp (sample_rt sample_ok PNone) other_agent [] no_locals world0
  = (Ok (unknown_tool (lit "plan") [lit "plan_with_jira"]), no_locals, world0).
Proof.
  apply (mcp_unknown_tool (sample_rt sample_ok PNone) other_agent []
           sample_request no_locals world0).
  - reflexivity.
  - vm_compute. intros [H | H]; [discriminate H | exact H].
Defined.

(** A registered name is dispatched to its handler. *)
Lemma mcp_known_tool rt agent body req handler r l w l' w' :
  rt_parse_request rt body = Ok req ->
  dict_get (replace (lit "tools/") [] (method req)) (tools agent)
  = Some handler ->
  handler (params req) no_locals w = (Ok r, l', w') ->
  mcp rt agent body l w = (Ok r, l, w').
Proof.
  intros Hp Hg Hh. unfold mcp. rewrite Hp.
  change (lit "") with (@nil N). rewrite Hg.
  unfold try_catch, call. rewrite Hh. reflexivity.
Qed.

(** C1, as stated, fails: the method ["pltools/an"] has no leading
    ["tools/"] and is no registered name, yet it is not answered with
    "Unknown tool": the occurrence inside it is removed and the handler of
    ["plan"] runs. *)
Lemma mcp_prefix_counterexample :
  rt_parse_request (sample_rt sample_ok PNone) [] = Ok sample_request
  /\ strip_tools_prefix (method sample_request) = lit "pltools/an"
  /\ ~ In (strip_tools_prefix (method sample_request))
          (dict_keys (tools sample_agent))
  /\ returned (mcp (sample_rt sample_ok PNone) sample_agent [] no_locals world0)
     = Some [(lit "ok", V (PBool true))]
  /\ returned (mcp (sample_rt sample_ok PNone) sample_agent [] no_locals world0)
     <> Some (unknown_tool (strip_tools_prefix (method sample_request))
                (dict_keys (tools sample_agent))).
Proof.
  split; [reflexivity|]. split; [vm_compute; reflexivity|].
  split; [vm_compute; intros [H | H]; [discriminate H | exact H]|].
  split; [vm_compute; reflexivity|].
  vm_compute. discriminate.
Qed.

(** * Further properties *)

(** ** The dispatch envelope *)

(** X1: [mcp] raises no [Exception] and leaves the locals of its caller
    alone; what it returns is the result of the registered handler or a
    reply with an [error] field. *)
Theorem mcp_outcome (rt : Runtime) (agent : MCPAgent) (body : list N)
  (l : Locals) (w : World) :
  match mcp rt agent body l w with
  | (Raise e, l', _) => is_exception e = false /\ l' = l
  | (Ok r, l', w') =>
    l' = l
    /\ (dict_mem (lit "error") r = true
        \/ exists req handler lh,
            rt_parse_request rt body = Ok req
            /\ dict_get (replace (lit "tools/") [] (method req)) (tools agent)
               = Some handler
            /\ handler (params req) no_locals w = (Ok r, lh, w'))
  end.
Proof.
  unfold mcp. destruct (rt_parse_request rt body) as [req|e] eqn:Hp.
  - change (lit "") with (@nil N).
    destruct (dict_get _ (tools agent)) as [handler|] eqn:Hg.
    + unfold try_catch, call.
      destruct (handler (params req) no_locals w) as [[[r|e] lh] wh] eqn:Hh.
      * split; [reflexivity|]. right. exists req, handler, lh. auto.
      * destruct (exn_class e) eqn:Hc; cbn [ret];
          try (split; [reflexivity | left; reflexivity]).
        unfold is_exception. rewrite Hc. auto.
    + split; [reflexivity | left; reflexivity].
  - destruct (exn_class e) eqn:Hc; cbn [ret raise];
      try (split; [reflexivity | left; reflexivity]).
    unfold is_exception. rewrite Hc. auto.
Qed.

(** X2: a method that is a registered name, bare or behind one ["tools/"],
    with no ["tools/"] inside the name, is dispatched to the handler of that
    name, and what the handler returns is returned as it is. *)
Theorem mcp_dispatch (rt : Runtime) (agent : MCPAgent) (body : list N)
  (req : MCPRequest) (handler : Handler) (r : result)
  (l lh : Locals) (w w' : World) :
  rt_parse_request rt body = Ok req ->
  contains (lit "tools/") (strip_tools_prefix (method req)) = false ->
  dict_get (strip_tools_prefix (method req)) (tools agent) = Some handler ->
  handler (params req) no_locals w = (Ok r, lh, w') ->
  mcp rt agent body l w = (Ok r, l, w').
Proof.
  intros Hp Hc Hg Hh.
  apply (mcp_known_tool rt agent body req handler r l w lh w' Hp); [|exact Hh].
  rewrite (replace_strip_agree _ Hc). exact Hg.
Qed.

Lemma mcp_dispatch_witness :
  mcp (sample_rt_req tools_request) sample_agent [] no_locals world0
  = (Ok [(lit "ok", V (PBool true))], no_locals, world0).
Proof.
  apply (mcp_dispatch (sample_rt_req tools_request) sample_agent []
           tools_request sample_handler [(lit "ok", V (PBool true))]
           no_locals no_locals world0 world0).
  - reflexivity.
  - vm_compute. reflexivity.
  - vm_compute. reflexivity.
  - reflexivity.
Defined.

(** X3: [register_tool] then lookup: the name registered last has the
    handler registered last, and every other name has what it had. *)
Theorem register_tool_lookup (agent : MCPAgent) (n k : pystr)
  (handler : Handler) :
  dict_get k (tools (register_tool agent n handler))
  = if PyStr.eqb k n then Some handler else dict_get k (tools agent).
Proof.
  unfold register_tool. cbn [tools].
  induction (tools agent) as [|[k' v] d IH]; cbn [dict_set dict_get].
  - reflexivity.
  - destruct (PyStr.eqb n k') eqn:E; cbn [dict_get].
    + apply eqb_eq in E. subst k'.
      destruct (PyStr.eqb k n); reflexivity.
    + rewrite IH. destruct (PyStr.eqb k k') eqn:E1; [|reflexivity].
      apply eqb_eq in E1. subst k'.
      destruct (PyStr.eqb k n) eqn:E2; [|reflexivity].
      apply eqb_eq in E2. subst k. rewrite eqb_refl in E. discriminate.
Qed.

(** X4: the registered names stay without duplicates; a name registered
    again keeps its place in [available_tools], a new name goes to the
    end. *)
Theorem register_tool_names (agent : MCPAgent) (n : pystr)
  (handler : Handler) :
  NoDup (dict_keys (tools agent)) ->
  NoDup (dict_keys (tools (register_tool agent n handler)))
  /\ (In n (dict_keys (tools agent)) ->
      dict_keys (tools (register_tool agent n handler))
      = dict_keys (tools agent))
  /\ (~ In n (dict_keys (tools agent)) ->
      dict_keys (tools (register_tool agent n handler))
      = dict_keys (tools agent) ++ [n]).
Proof.
  unfold register_tool. cbn [tools]. intros Hnd.
  assert (Hin : In n (dict_keys (tools agent)) ->
                dict_keys (dict_set n handler (tools agent))
                = dict_keys (tools agent)).
  { induction (tools agent) as [|[k' v] d IH]; cbn; [tauto|].
    destruct (PyStr.eqb n k') eqn:E; cbn; [reflexivity|].
    apply eqb_neq in E. intros [H | H]; [congruence|].
    f_equal. apply IH; [|exact H]. now inversion Hnd. }
  assert (Hout : ~ In n (dict_keys (tools agent)) ->
                 dict_keys (dict_set n handler (tools agent))
                 = dict_keys (tools agent) ++ [n]).
  { clear Hin. induction (tools agent) as [|[k' v] d IH]; cbn;
      [reflexivity|].
    intros H. destruct (PyStr.eqb n k') eqn:E; cbn.
    - apply eqb_eq in E. subst k'. tauto.
    - f_equal. apply IH; [now inversion Hnd | tauto]. }
  split; [|split; assumption].
  destruct (in_dec (list_eq_dec N.eq_dec) n (dict_keys (tools agent)))
    as [H | H].
  - rewrite (Hin H). exact Hnd.
  - rewrite (Hout H). apply NoDup_app; [exact Hnd | repeat constructor; tauto|].
    intros x Hx [<- | []]. exact (H Hx).
Qed.

Lemma register_tool_names_witness :
  NoDup (dict_keys (tools (register_tool sample_agent (lit "plan_with_jira")
                             sample_handler)))
  /\ dict_keys (tools (register_tool sample_agent (lit "plan_with_jira")
                         sample_handler))
     = [lit "plan"; lit "plan_with_jira"].
Proof.
  destruct (register_tool_names sample_agent (lit "plan_with_jira")
              sample_handler) as (H1 & _ & H3).
  - vm_compute. repeat constructor. tauto.
  - split; [exact H1|]. rewrite H3; [reflexivity|].
    vm_compute. intros [H | H]; [discriminate H | exact H].
Defined.

(** ** The LLM gateway *)

(** X5: a provider that is neither "stub" nor "groq" is answered with
    ["[unsupported provider] "] and its name; no request is sent. *)
Theorem chat_unsupported_provider (rt : Runtime) (c : LLMClient)
  (prompt : pystr) (L : Type) (l : L) (w : World) :
  provider c <> lit "stub" -> provider c <> lit "groq" ->
  chat rt c prompt l w
  = (Ok (PStr (lit "[unsupported provider] " ++ provider c)), l,
     mkWorld (clock w) (net_log w) (llm_log w ++ [prompt])).
Proof.
  intros Hs Hg. apply eqb_neq in Hs, Hg.
  unfold chat, bind, note_chat. rewrite Hs, Hg. reflexivity.
Qed.

Lemma chat_unsupported_provider_witness :
  LLMClient_init (sample_rt sample_ok PNone) openai_environ = Ok openai_client
  /\ chat (sample_rt sample_ok PNone) openai_client (lit "hello") tt world0
     = (Ok (PStr (lit "[unsupported provider] " ++ provider openai_client)),
        tt,
        mkWorld (clock world0) (net_log world0)
          (llm_log world0 ++ [lit "hello"])).
Proof.
  split; [vm_compute; reflexivity|].
  apply (chat_unsupported_provider (sample_rt sample_ok PNone) openai_client
           (lit "hello") unit tt world0).
  - vm_compute. discriminate.
  - vm_compute. discriminate.
Defined.

Lemma py_len_has_len (v : pyval) (n : nat) :
  py_len v = Ok n -> has_len v = true.
Proof. destruct v; simpl; intros H; try discriminate; reflexivity. Qed.

(** What [chat] returns on a client built by [__init__] has a length. *)
Lemma chat_returns_has_len (rt : Runtime) (environ : pystr -> option pystr)
  (c : LLMClient) (prompt : pystr) (L : Type) (l l' : L) (w w' : World)
  (v : pyval) :
  LLMClient_init rt environ = Ok c ->
  chat rt c prompt l w = (Ok v, l', w') -> has_len v = true.
Proof.
  intros Hi. unfold chat, bind at 1 2, note_chat.
  destruct (PyStr.eqb (provider c) (lit "groq")) eqn:Eg.
  - apply eqb_eq in Eg.
    destruct (LLMClient_init_groq _ _ _ Hi Eg) as (k & u & m & Hk & Hu & Hm).
    rewrite Hm, Eg. simpl. unfold bind at 1 2. rewrite Hk. simpl.
    unfold try_except.
    destruct (chat_upstream _ _ _ _ _ _) as [[[a|e1] l1] w1] eqn:Hup.
    + simpl. intros H. injection H as <- _ _. unfold chat_upstream in Hup.
      cbv beta iota zeta delta [bind ret raise lift] in Hup.
      split_run Hup; try discriminate.
      injection Hup as <- _ _. eapply py_len_has_len. eassumption.
    + destruct (is_exception e1) eqn:E1; simpl; intros H;
        [injection H as <- _ _; reflexivity | discriminate].
  - simpl. destruct (PyStr.eqb (provider c) (lit "stub")); intros H;
      injection H as <- _ _; reflexivity.
Qed.

(** X6: on a client built by [__init__], [chat] raises no [Exception], and
    what it returns is a string, or a list or dictionary that the provider
    put where the content of the message belongs. *)
Theorem chat_outcome (rt : Runtime) (environ : pystr -> option pystr)
  (c : LLMClient) (prompt : pystr) (L : Type) (l : L) (w : World) :
  LLMClient_init rt environ = Ok c ->
  match fst (fst (chat rt c prompt l w)) with
  | Ok v => has_len v = true
  | Raise e => is_exception e = false
  end.
Proof.
  intros Hi.
  destruct (chat rt c prompt l w) as [[[v|e] l1] w1] eqn:E; cbn [fst].
  - exact (chat_returns_has_len rt environ c prompt L l l1 w w1 v Hi E).
  - exact (chat_raises_no_exception L rt environ c prompt l w e l1 w1 Hi E).
Qed.

Lemma chat_outcome_witness :
  match fst (fst (chat (sample_rt sample_ok (PList [])) groq_client
                    (lit "hello") tt world0)) with
  | Ok v => has_len v = true
  | Raise e => is_exception e = false
  end.
Proof.
  apply (chat_outcome (sample_rt sample_ok (PList [])) groq_environ
           groq_client (lit "hello") unit tt world0).
  vm_compute. reflexivity.
Defined.

(** X7: on a client built for groq, when the provider answers with a body
    whose first choice has a message with a string for content, [chat]
    returns that string; one request has been sent, a POST to the
    completions URL with a timeout of 30 seconds and the key as bearer
    token. *)
Theorem chat_groq_success (rt : Runtime) (environ : pystr -> option pystr)
  (c : LLMClient) (prompt : pystr) (L : Type) (l : L) (w : World)
  (call : HttpCall) (resp : Response) (d ch msg : pydict)
  (others : list pyval) (s : pystr) :
  LLMClient_init rt environ = Ok c ->
  provider c = lit "groq" ->
  chat_request c prompt = Some call ->
  rt_http rt (net_log w) call = Ok resp ->
  rt_status_error rt resp = None ->
  rt_json rt resp = inr (PDict d) ->
  dict_get (lit "choices") d = Some (PList (PDict ch :: others)) ->
  dict_get (lit "message") ch = Some (PDict msg) ->
  dict_get (lit "content") msg = Some (PStr s) ->
  usage_ok d = true ->
  chat rt c prompt l w
  = (Ok (PStr s), l,
     mkWorld (clock w) (net_log w ++ [call]) (llm_log w ++ [prompt]))
  /\ call_verb call = POST /\ call_timeout call = 30%N
  /\ call_url call = lit "https://api.groq.com/openai/v1/chat/completions"
  /\ exists key,
       environ (lit "GROQ_API_KEY") = Some key
       /\ dict_get (lit "Authorization") (call_headers call)
          = Some (PStr (lit "Bearer " ++ key)).
Proof.
  intros Hi Hp Hc Hr Hs Hj H1 H2 H3 Hu.
  destruct (LLMClient_init_groq _ _ _ Hi Hp) as (k & u & m & Hk & Hu' & Hm).
  unfold chat_request in Hc. rewrite Hm, Hk, Hu' in Hc. injection Hc as <-.
  cbn [call_verb call_timeout call_url call_headers].
  split.
  - unfold chat, bind at 1 2, note_chat. rewrite Hp, Hm. simpl.
    unfold bind at 1 2. rewrite Hk. simpl.
    unfold try_except, chat_upstream, bind, http_send. rewrite Hu'. simpl.
    rewrite Hr. unfold raise_for_status, response_json. rewrite Hs, Hj.
    cbn [ret lift subscript_str]. rewrite H1.
    cbn [subscript_0 subscript_str]. rewrite H2.
    cbn [subscript_str]. rewrite H3. cbn [py_len method_get].
    unfold usage_ok in Hu.
    destruct (dict_get (lit "usage") d) as [[]|]; try discriminate;
      reflexivity.
  - unfold LLMClient_init in Hi.
    destruct (PyStr.eqb _ (lit "groq")) eqn:E.
    + destruct (environ (lit "GROQ_API_KEY")) as [key|] eqn:Ek;
        [|discriminate].
      unfold truthy_opt in Hi. destruct (truthy_str key); [|discriminate].
      simpl in Hi. injection Hi as <-. simpl in Hk, Hu'.
      injection Hk as <-. injection Hu' as <-.
      repeat split. exists key. split; reflexivity.
    + injection Hi as <-. simpl in Hp. apply eqb_neq in E. contradiction.
Qed.

Lemma chat_groq_success_witness :
  chat (sample_rt sample_ok (PStr list_text)) groq_client (lit "hello") tt
    world0
  = (Ok (PStr list_text), tt,
     mkWorld (clock world0)
       (net_log world0
          ++ [mkHttpCall POST
                (lit "https://api.groq.com/openai/v1/chat/completions") 30
                None (chat_headers (lit "secret"))
                (Some (chat_payload (lit "llama-3.3-70b-versatile")
                         (lit "hello"))) None])
       (llm_log world0 ++ [lit "hello"])).
Proof.
  apply (chat_groq_success (sample_rt sample_ok (PStr list_text))
           groq_environ groq_client (lit "hello") unit tt world0
           (mkHttpCall POST
              (lit "https://api.groq.com/openai/v1/chat/completions") 30
              None (chat_headers (lit "secret"))
              (Some (chat_payload (lit "llama-3.3-70b-versatile")
                       (lit "hello"))) None)
           (mkResponse 200 [])
           [ (lit "choices",
              PList [PDict [(lit "message",
                             PDict [(lit "content", PStr list_text)])]]) ]
           [(lit "message", PDict [(lit "content", PStr list_text)])]
           [(lit "content", PStr list_text)] [] list_text);
    vm_compute; reflexivity.
Defined.

Lemma subscript_str_Ok (v x : pyval) (k : pystr) :
  subscript_str v k = Ok x -> exists d, v = PDict d /\ dict_get k d = Some x.
Proof.
  destruct v; simpl; try discriminate.
  destruct (dict_get k d) eqn:E; [|discriminate].
  intros H. injection H as <-. eauto.
Qed.

(** X8: what [chat] returns on a client built for groq is the sentinel
    ["[LLM error] "] with the text of an exception, or the value found at
    [choices[0].message.content] of the body of the response. *)
Theorem chat_groq_returns (rt : Runtime) (environ : pystr -> option pystr)
  (c : LLMClient) (prompt : pystr) (L : Type) (l : L) (w : World)
  (v : pyval) :
  LLMClient_init rt environ = Ok c ->
  provider c = lit "groq" ->
  fst (fst (chat rt c prompt l w)) = Ok v ->
  (exists e, v = PStr (lit "[LLM error] " ++ exn_str e))
  \/ (exists call resp d ch others msg,
         chat_request c prompt = Some call
         /\ rt_http rt (net_log w) call = Ok resp
         /\ rt_json rt resp = inr (PDict d)
         /\ dict_get (lit "choices") d = Some (PList (PDict ch :: others))
         /\ dict_get (lit "message") ch = Some (PDict msg)
         /\ dict_get (lit "content") msg = Some v).
Proof.
  intros Hi Hp.
  destruct (LLMClient_init_groq _ _ _ Hi Hp) as (k & u & m & Hk & Hu & Hm).
  unfold chat, bind at 1 2, note_chat. rewrite Hp, Hm. simpl.
  unfold bind at 1 2. rewrite Hk. simpl. unfold try_except.
  destruct (chat_upstream _ _ _ _ _ _) as [[[a|e1] l1] w1] eqn:Hup.
  - simpl. intros H. injection H as <-. right.
    unfold chat_upstream in Hup. rewrite Hu in Hup.
    unfold bind at 1, client_attr at 1, ret at 1 in Hup.
    unfold bind at 1, http_send at 1 in Hup. cbn [net_log] in Hup.
    destruct (rt_http rt (net_log w) _) as [resp|] eqn:Hr; [|discriminate].
    unfold bind at 1, raise_for_status at 1 in Hup.
    destruct (rt_status_error rt resp); [discriminate|].
    unfold ret at 1 in Hup.
    unfold bind at 1, response_json at 1 in Hup.
    destruct (rt_json rt resp) as [|data] eqn:Hj; [discriminate|].
    unfold ret at 1 in Hup.
    cbv beta iota zeta delta [bind ret raise lift] in Hup.
    destruct (subscript_str data (lit "choices")) as [choices|] eqn:H1;
      [|discriminate].
    destruct (subscript_0 choices) as [choice|] eqn:H2; [|discriminate].
    destruct (subscript_str choice (lit "message")) as [message|] eqn:H3;
      [|discriminate].
    destruct (subscript_str message (lit "content")) as [content|] eqn:H4;
      [|discriminate].
    split_run Hup; try discriminate. injection Hup as <- _ _.
    apply subscript_str_Ok in H1 as (d & -> & H1).
    apply subscript_str_Ok in H3 as (ch & -> & H3).
    apply subscript_str_Ok in H4 as (msg & -> & H4).
    destruct choices as [| | | | s |lst|]; simpl in H2; try discriminate.
    + destruct s; discriminate.
    + destruct lst as [|x others]; [discriminate|]. injection H2 as ->.
      exists (mkHttpCall POST u 30 None (chat_headers k)
                (Some (chat_payload m prompt)) None), resp, d, ch, others, msg.
      unfold chat_request. rewrite Hm, Hk, Hu. auto 10.
  - destruct (is_exception e1); simpl; [|discriminate].
    intros H. injection H as <-. left. eauto.
Qed.

Lemma chat_groq_returns_witness :
  (exists e, PStr list_text = PStr (lit "[LLM error] " ++ exn_str e))
  \/ (exists call resp d ch others msg,
         chat_request groq_client (lit "hello") = Some call
         /\ rt_http (sample_rt sample_ok (PStr list_text)) (net_log world0)
              call = Ok resp
         /\ rt_json (sample_rt sample_ok (PStr list_text)) resp
            = inr (PDict d)
         /\ dict_get (lit "choices") d = Some (PList (PDict ch :: others))
         /\ dict_get (lit "message") ch = Some (PDict msg)
         /\ dict_get (lit "content") msg = Some (PStr list_text)).
Proof.
  apply (chat_groq_returns (sample_rt sample_ok (PStr list_text))
           groq_environ groq_client (lit "hello") unit tt world0
           (PStr list_text)); vm_compute; reflexivity.
Defined.

(** X9: [LLMClient.__init__] fails exactly when the provider, in lower
    case, is "groq" and [GROQ_API_KEY] is unset or empty; the error says
    so.  Without [LLM_PROVIDER] the provider is the lower-cased "stub". *)
Theorem LLMClient_init_outcome (rt : Runtime)
  (environ : pystr -> option pystr) :
  let name := str_lower rt (getenv_default environ "LLM_PROVIDER" "stub") in
  match LLMClient_init rt environ with
  | Raise e =>
    name = lit "groq"
    /\ truthy_opt (environ (lit "GROQ_API_KEY")) = false
    /\ exn_str e = lit "GROQ_API_KEY is not set"
    /\ is_exception e = true
  | Ok c =>
    provider c = name
    /\ (name = lit "groq" ->
        api_key c = environ (lit "GROQ_API_KEY")
        /\ truthy_opt (api_key c) = true)
    /\ (name <> lit "groq" ->
        api_key c = None /\ base_url c = None /\ model c = None)
  end.
Proof.
  intros name. unfold LLMClient_init. fold name.
  destruct (PyStr.eqb name (lit "groq")) eqn:E.
  - apply eqb_eq in E.
    destruct (truthy_opt (environ (lit "GROQ_API_KEY"))) eqn:Ek; simpl.
    + split; [reflexivity|]. split.
      * intros _. split; [reflexivity | exact Ek].
      * intros Hn. contradiction.
    + repeat split; auto.
  - apply eqb_neq in E. simpl. split; [reflexivity|]. split.
    + intros Hn. contradiction.
    + intros _. repeat split.
Qed.

(** ** The ticket-tracker gateway *)

Lemma dropwhile_head f (s : pystr) (c : N) (r : pystr) :
  dropwhile f s = c :: r -> f c = false.
Proof.
  induction s as [|a s IH]; simpl; [discriminate|].
  destruct (f a) eqn:E; [exact IH|].
  intros H. injection H as <- _. exact E.
Qed.

Lemma rstrip_chars_last chars (s t : pystr) (c : N) :
  rstrip_chars chars s = t ++ [c] -> mem c chars = false.
Proof.
  unfold rstrip_chars. intros H.
  apply (f_equal (@rev N)) in H. rewrite rev_involutive, rev_app_distr in H.
  simpl in H. apply dropwhile_head in H. exact H.
Qed.

(** X10: the gateway is in real mode exactly when the URL, once its
    trailing slashes are removed, the e-mail address and the token are all
    non-empty; the URL it keeps never ends in a slash. *)
Theorem JiraClient_init_outcome (environ : pystr -> option pystr) :
  let j := JiraClient_init environ in
  (mock_mode j = false <->
   truthy_str (url j) = true
   /\ truthy_opt (environ (lit "JIRA_EMAIL")) = true
   /\ truthy_opt (environ (lit "JIRA_API_TOKEN")) = true)
  /\ url j = rstrip_chars (lit "/") (getenv_default environ "JIRA_URL" "")
  /\ (forall t, url j <> t ++ lit "/")
  /\ email j = environ (lit "JIRA_EMAIL")
  /\ token j = environ (lit "JIRA_API_TOKEN").
Proof.
  cbv zeta. unfold JiraClient_init.
  set (u := rstrip_chars (lit "/") (getenv_default environ "JIRA_URL" "")).
  assert (Hu : forall t, u <> t ++ lit "/").
  { intros t H. apply rstrip_chars_last in H. vm_compute in H.
    discriminate. }
  destruct (truthy_str u) eqn:E1;
    destruct (truthy_opt (environ (lit "JIRA_EMAIL"))) eqn:E2;
    destruct (truthy_opt (environ (lit "JIRA_API_TOKEN"))) eqn:E3;
    cbn [negb andb mock_mode url email token];
    rewrite ?E1; (repeat split; auto; try discriminate;
                  intros (? & ? & ?); discriminate).
Qed.

(** X11: in mock mode the number in the key lies between 0 and 999,
    whatever the sign of the hash, and the URL is the mock address followed
    by the key. *)
Theorem create_task_mock_key (rt : Runtime) (j : JiraClient)
  (summary description issue_type : pystr) (L : Type) (l : L) (w : World) :
  mock_mode j = true ->
  exists n d,
    (0 <= n < 1000)%Z
    /\ create_task rt j summary description issue_type l w = (Ok d, l, w)
    /\ dict_get (lit "issue_key") d
       = Some (PStr (project_key j ++ lit "-" ++ str_of_Z n))
    /\ dict_get (lit "url") d
       = Some (PStr (lit "https://mock-jira.atlassian.net/browse/"
                       ++ project_key j ++ lit "-" ++ str_of_Z n))
    /\ dict_get (lit "status") d = Some (PStr (lit "mock_created")).
Proof.
  intros Hm. exists (rt_hash rt summary mod 1000)%Z. eexists.
  split; [apply Z.mod_pos_bound; lia|].
  unfold create_task. rewrite Hm. split; [reflexivity|].
  repeat split.
Qed.

Lemma create_task_mock_key_witness :
  mock_mode mock_jira = true
  /\ exists n d,
       (0 <= n < 1000)%Z
       /\ create_task (sample_rt sample_ok PNone) mock_jira (lit "Ship it")
            (lit "soon") (lit "Task") tt world0 = (Ok d, tt, world0)
       /\ dict_get (lit "issue_key") d
          = Some (PStr (project_key mock_jira ++ lit "-" ++ str_of_Z n))
       /\ dict_get (lit "url") d
          = Some (PStr (lit "https://mock-jira.atlassian.net/browse/"
                          ++ project_key mock_jira ++ lit "-" ++ str_of_Z n))
       /\ dict_get (lit "status") d = Some (PStr (lit "mock_created")).
Proof.
  split; [reflexivity|].
  apply (create_task_mock_key (sample_rt sample_ok PNone) mock_jira
           (lit "Ship it") (lit "soon") (lit "Task") unit tt world0).
  reflexivity.
Defined.

(** X12: in real mode, with both credentials, [create_task] sends one
    request, a POST of the issue to [/rest/api/3/issue] with a timeout of 15
    seconds, and raises no [Exception]: it returns a record with [mock]
    false whose status is "created" or "error". *)
Theorem create_task_real (rt : Runtime) (j : JiraClient)
  (summary description issue_type e t : pystr)
  (L : Type) (l : L) (w : World) :
  mock_mode j = false -> email j = Some e -> token j = Some t ->
  match create_task rt j summary description issue_type l w with
  | (Ok d, l', w') =>
    l' = l
    /\ net_log w'
       = net_log w
           ++ [create_task_request j summary description issue_type (e, t)]
    /\ dict_get (lit "mock") d = Some (PBool false)
    /\ (dict_get (lit "status") d = Some (PStr (lit "created"))
        \/ dict_get (lit "status") d = Some (PStr (lit "error"))
           /\ dict_mem (lit "error") d = true)
  | (Raise x, _, _) => is_exception x = false
  end.
Proof.
  intros Hm He Ht. unfold create_task. rewrite Hm.
  unfold bind at 1, basic_auth. rewrite He, Ht. unfold ret at 1.
  fold (create_task_request j summary description issue_type (e, t)).
  unfold try_catch.
  match goal with
  | |- context [bind ?m ?k l w] => destruct (bind m k l w) as [[r l1] w1] eqn:Hb
  end.
  unfold bind at 1, http_send at 1 in Hb. cbn [net_log clock llm_log] in Hb.
  destruct (rt_http rt (net_log w) _) as [resp|x] eqn:Hr.
  - unfold bind at 1, raise_for_status at 1 in Hb.
    destruct (rt_status_error rt resp) as [msg|].
    + unfold raise at 1 in Hb. injection Hb as <- <- <-.
      cbn [exn_class ret]. repeat split. right. split; reflexivity.
    + unfold ret at 1 in Hb. unfold bind at 1, response_json at 1 in Hb.
      destruct (rt_json rt resp) as [msg|data].
      * unfold raise at 1 in Hb. injection Hb as <- <- <-.
        cbn [exn_class ret]. repeat split. right. split; reflexivity.
      * cbv beta iota zeta delta [bind ret raise lift] in Hb.
        destruct (subscript_str data (lit "key")) as [key|x] eqn:Hk.
        -- destruct (method_get data (lit "id") PNone) as [i|x] eqn:Hi.
           ++ injection Hb as <- <- <-. repeat split. left. reflexivity.
           ++ injection Hb as <- <- <-.
              destruct data; simpl in Hi; try discriminate;
                injection Hi as <-; cbn [exn_class attribute_error ret];
                repeat split; right; split; reflexivity.
        -- injection Hb as <- <- <-.
           destruct data; simpl in Hk; try discriminate;
             try (injection Hk as <-; cbn [exn_class type_error ret];
                  repeat split; right; split; reflexivity).
           destruct (dict_get (lit "key") d); [discriminate|].
           injection Hk as <-. cbn [exn_class key_error ret].
           repeat split. right. split; reflexivity.
  - injection Hb as <- <- <-.
    destruct (exn_class x) eqn:Hc; cbn [ret];
      try (repeat split; right; split; reflexivity).
    unfold is_exception. rewrite Hc. reflexivity.
Qed.

Lemma create_task_real_witness :
  match create_task (sample_rt sample_ok PNone) real_jira (lit "Ship it")
          (lit "soon") (lit "Task") tt world0 with
  | (Ok d, l', w') =>
    l' = tt
    /\ net_log w'
       = net_log world0
           ++ [create_task_request real_jira (lit "Ship it") (lit "soon")
                 (lit "Task") (lit "dev@acme.io", lit "token")]
    /\ dict_get (lit "mock") d = Some (PBool false)
    /\ (dict_get (lit "status") d = Some (PStr (lit "created"))
        \/ dict_get (lit "status") d = Some (PStr (lit "error"))
           /\ dict_mem (lit "error") d = true)
  | (Raise x, _, _) => is_exception x = false
  end.
Proof.
  apply (create_task_real (sample_rt sample_ok PNone) real_jira
           (lit "Ship it") (lit "soon") (lit "Task") (lit "dev@acme.io")
           (lit "token") unit tt world0); vm_compute; reflexivity.
Defined.

(** The URL of the sample tracker, without its trailing slashes. *)
Example real_jira_url : url real_jira = lit "https://acme.atlassian.net".
Proof. vm_compute. reflexivity. Qed.

(** X13: when the tracker answers with an error status, [create_task]
    reports ["HTTP <code>: "] and the first 200 characters of the body. *)
Theorem create_task_http_error (rt : Runtime) (j : JiraClient)
  (summary description issue_type e t msg : pystr) (resp : Response)
  (L : Type) (l : L) (w : World) :
  mock_mode j = false -> email j = Some e -> token j = Some t ->
  rt_http rt (net_log w)
    (create_task_request j summary description issue_type (e, t)) = Ok resp ->
  rt_status_error rt resp = Some msg ->
  exists d w' body,
    create_task rt j summary description issue_type l w = (Ok d, l, w')
    /\ dict_get (lit "status") d = Some (PStr (lit "error"))
    /\ dict_get (lit "error") d
       = Some (PStr (lit "HTTP " ++ str_of_Z (status_code resp) ++ lit ": "
                       ++ body))
    /\ body = firstn 200 (text resp) /\ length body <= 200
    /\ dict_get (lit "mock") d = Some (PBool false).
Proof.
  intros Hm He Ht Hr Hs. unfold create_task. rewrite Hm.
  unfold bind at 1, basic_auth. rewrite He, Ht. unfold ret at 1.
  fold (create_task_request j summary description issue_type (e, t)).
  unfold try_catch, bind at 1, http_send at 1. cbn [net_log]. rewrite Hr.
  unfold bind at 1, raise_for_status at 1. rewrite Hs.
  unfold raise at 1. cbn [exn_class ret].
  do 2 eexists. exists (firstn 200 (text resp)).
  split; [reflexivity|]. repeat split. apply firstn_le_length.
Qed.

Lemma create_task_http_error_witness :
  exists d w' body,
    create_task (sample_rt_status server_error (Some (lit "Server error")))
      real_jira (lit "Ship it") (lit "soon") (lit "Task") tt world0
    = (Ok d, tt, w')
    /\ dict_get (lit "status") d = Some (PStr (lit "error"))
    /\ dict_get (lit "error") d
       = Some (PStr (lit "HTTP " ++ str_of_Z (status_code server_error)
                       ++ lit ": " ++ body))
    /\ body = firstn 200 (text server_error) /\ length body <= 200
    /\ dict_get (lit "mock") d = Some (PBool false).
Proof.
  apply (create_task_http_error
           (sample_rt_status server_error (Some (lit "Server error")))
           real_jira (lit "Ship it") (lit "soon") (lit "Task")
           (lit "dev@acme.io") (lit "token") (lit "Server error")
           server_error unit tt world0); vm_compute; reflexivity.
Defined.

(** The message of the sample. *)
Example create_task_http_error_sample :
  lit "HTTP " ++ str_of_Z (status_code server_error) ++ lit ": "
    ++ firstn 200 (text server_error)
  = lit "HTTP 500: Internal Server Error".
Proof. vm_compute. reflexivity. Qed.



(** ** The planning handler, further *)







(** X16: what [plan] returns has either a list of subtasks that is not
    empty, the fallback list or a list in which the check found no
    indicator, and no error; or an error, no subtasks, and the one fallback
    subtask "Manual planning required". *)
Theorem plan_result_invariant (rt : Runtime) (llm : LLMClient)
  (description : pystr) (l : Locals) (w : World) (r : result) (l' : Locals)
  (w' : World) :
  plan rt llm description l w = (Ok r, l', w') ->
  (exists subtasks,
      dict_get (lit "subtasks") r = Some (vstrs subtasks)
      /\ subtasks <> []
      /\ (subtasks = fallback_subtasks
          \/ _is_invalid_response rt subtasks = false)
      /\ dict_mem (lit "error") r = false)
  \/ (dict_get (lit "subtasks") r = None
      /\ dict_mem (lit "error") r = true
      /\ dict_get (lit "fallback_subtasks") r
         = Some (vstrs [lit "Manual planning required"])).
Proof.
  intros H. unfold plan in H. run_handler_in H.
  run_chat H r1 w1 E.
  assert (Hne : forall s, _is_invalid_response rt s = false -> s <> [])
    by (intros s Hs ->; discriminate Hs).
  destruct r1 as [v|e].
  - destruct v; cbn [method_split is_exception attribute_error exn_class] in H;
      try (injection H as <- _ _; right; repeat split).
    destruct (parse_subtasks (split nl s)) as [|p ps] eqn:Ep.
    + destruct (_is_invalid_response rt (first_lines (split nl s))) eqn:Ev;
        injection H as <- _ _; left; eexists;
        (split; [reflexivity|]).
      * split; [discriminate|]. split; [left; reflexivity | reflexivity].
      * split; [apply Hne; exact Ev|]. split; [right; exact Ev | reflexivity].
    + destruct (_is_invalid_response rt (p :: ps)) eqn:Ev;
        injection H as <- _ _; left; eexists;
        (split; [reflexivity|]).
      * split; [discriminate|]. split; [left; reflexivity | reflexivity].
      * split; [discriminate|]. split; [right; exact Ev | reflexivity].
  - destruct (is_exception e); [|discriminate].
    injection H as <- _ _. right. repeat split.
Qed.

Lemma plan_result_invariant_witness :
  exists r l' w',
    plan (sample_rt sample_ok (PStr list_text)) groq_client (lit "Ship it")
      no_locals world0 = (Ok r, l', w')
    /\ ((exists subtasks,
            dict_get (lit "subtasks") r = Some (vstrs subtasks)
            /\ subtasks <> []
            /\ (subtasks = fallback_subtasks
                \/ _is_invalid_response (sample_rt sample_ok (PStr list_text))
                     subtasks = false)
            /\ dict_mem (lit "error") r = false)
        \/ (dict_get (lit "subtasks") r = None
            /\ dict_mem (lit "error") r = true
            /\ dict_get (lit "fallback_subtasks") r
               = Some (vstrs [lit "Manual planning required"]))).
Proof.
  do 3 eexists. split.
  - cbv. reflexivity.
  - eapply (plan_result_invariant (sample_rt sample_ok (PStr list_text))
              groq_client (lit "Ship it") no_locals world0).
    cbv. reflexivity.
Defined.

(** ** What a handler does to the world *)

Section KeepsField.
Context {F L : Type} (f : World -> F).

Lemma kf_ret A (a : A) : keeps_field f (ret (L:=L) a).
Proof. intros l w. reflexivity. Qed.

Lemma kf_raise A e : keeps_field f (raise (L:=L) (A:=A) e).
Proof. intros l w. reflexivity. Qed.

Lemma kf_lift A (r : Res A) : keeps_field f (lift (L:=L) r).
Proof. intros l w. reflexivity. Qed.

Lemma kf_bind A B (m : M L A) (k : A -> M L B) :
  keeps_field f m -> (forall a, keeps_field f (k a)) ->
  keeps_field f (bind m k).
Proof.
  intros Hm Hk l w. unfold bind. specialize (Hm l w).
  destruct (m l w) as [[[a|e] l1] w1]; simpl in Hm.
  - rewrite Hk. exact Hm.
  - exact Hm.
Qed.

Lemma kf_try_catch A (m : M L A) h :
  keeps_field f m -> (forall e k, h e = Some k -> keeps_field f k) ->
  keeps_field f (try_catch m h).
Proof.
  intros Hm Hh l w. unfold try_catch. specialize (Hm l w).
  destruct (m l w) as [[[a|e] l1] w1]; simpl in Hm.
  - exact Hm.
  - destruct (h e) as [k|] eqn:E; [rewrite (Hh e k E); exact Hm | exact Hm].
Qed.

Lemma kf_try_except A (m : M L A) h :
  keeps_field f m -> (forall e, keeps_field f (h e)) ->
  keeps_field f (try_except m h).
Proof.
  intros Hm Hh l w. unfold try_except. specialize (Hm l w).
  destruct (m l w) as [[[a|e] l1] w1]; simpl in Hm.
  - exact Hm.
  - destruct (is_exception e); [rewrite Hh; exact Hm | exact Hm].
Qed.

Lemma kf_raise_for_status rt r :
  keeps_field f (raise_for_status (L:=L) rt r).
Proof.
  unfold raise_for_status. destruct (rt_status_error rt r);
    [apply kf_raise | apply kf_ret].
Qed.

Lemma kf_response_json rt r : keeps_field f (response_json (L:=L) rt r).
Proof.
  unfold response_json. destruct (rt_json rt r);
    [apply kf_raise | apply kf_ret].
Qed.

Lemma kf_client_attr o n : keeps_field f (client_attr (L:=L) o n).
Proof.
  unfold client_attr. destruct o; [apply kf_ret | apply kf_raise].
Qed.

Lemma kf_basic_auth j : keeps_field f (basic_auth (L:=L) j).
Proof.
  unfold basic_auth. destruct (email j), (token j);
    first [apply kf_ret | apply kf_raise].
Qed.

End KeepsField.

Lemma kf_http_send_llm L rt c : keeps_field llm_log (http_send (L:=L) rt c).
Proof. intros l w. reflexivity. Qed.

Lemma kf_http_send_clock L rt c : keeps_field clock (http_send (L:=L) rt c).
Proof. intros l w. reflexivity. Qed.

Ltac kf :=
  repeat first
    [ apply kf_ret | apply kf_raise | apply kf_lift
    | apply kf_http_send_llm | apply kf_http_send_clock
    | apply kf_raise_for_status | apply kf_response_json
    | apply kf_client_attr | apply kf_basic_auth
    | apply kf_bind; [|intros]
    | apply kf_try_except; [|intros]
    | match goal with
      | |- keeps_field _ (if ?b then _ else _) => destruct b
      end ].

Lemma note_chat_then L A F (f : World -> F) prompt (k : unit -> M L A)
  (l : L) (w : World) :
  keeps_field f (k tt) ->
  f (snd (bind (note_chat prompt) k l w))
  = f (mkWorld (clock w) (net_log w) (llm_log w ++ [prompt])).
Proof. intros H. unfold bind, note_chat. apply H. Qed.

(** [chat] records its prompt, and nothing else, in the record of prompts;
    it does not read the clock; a provider other than groq sends nothing. *)
Lemma chat_world L rt c prompt (l : L) (w : World) :
  exists r w1,
    chat rt c prompt l w = (r, l, w1)
    /\ llm_log w1 = llm_log w ++ [prompt]
    /\ clock w1 = clock w
    /\ (not_groq c = true -> net_log w1 = net_log w).
Proof.
  destruct (keeps_run L _ (chat rt c prompt) l w (keeps_chat L rt c prompt))
    as (r & w1 & E).
  exists r, w1. split; [exact E|].
  assert (Hw : w1 = snd (chat rt c prompt l w)) by (rewrite E; reflexivity).
  rewrite Hw. unfold chat. split; [|split].
  - rewrite (note_chat_then L _ _ llm_log); [reflexivity|].
    cbv beta. unfold chat_upstream. kf.
  - rewrite (note_chat_then L _ _ clock); [reflexivity|].
    cbv beta. unfold chat_upstream. kf.
  - unfold not_groq. intros Hg. apply negb_true_iff in Hg.
    unfold bind at 1, note_chat at 1. rewrite Hg. unfold bind, ret.
    destruct (PyStr.eqb (provider c) (lit "stub")); reflexivity.
Qed.

Lemma kf_create_task_llm L rt j s d t :
  keeps_field llm_log (create_task (L:=L) rt j s d t).
Proof.
  unfold create_task. kf.
  apply kf_try_catch; [kf|].
  intros e k Hk. destruct (exn_class e); inversion Hk; kf.
Qed.

Lemma kf_get_project_issues_llm L rt j n :
  keeps_field llm_log (get_project_issues (L:=L) rt j n).
Proof. unfold get_project_issues. kf. Qed.

Lemma kf_count_statuses F (f : World -> F) issues :
  forall counts, keeps_field f (count_statuses issues counts).
Proof.
  induction issues as [|issue rest IH]; intros counts; simpl; kf.
  apply IH.
Qed.

(** A gateway of the tracker in a run: the locals stay, the record of
    prompts stays, and in mock mode the record of requests stays. *)
Lemma create_task_world L rt j s d t (l : L) (w : World) :
  exists r w1,
    create_task rt j s d t l w = (r, l, w1)
    /\ llm_log w1 = llm_log w
    /\ (mock_mode j = true -> net_log w1 = net_log w).
Proof.
  destruct (keeps_run L _ (create_task rt j s d t) l w
              (keeps_create_task L rt j s d t)) as (r & w1 & E).
  exists r, w1. split; [exact E|]. split.
  - pose proof (kf_create_task_llm L rt j s d t l w) as H.
    rewrite E in H. exact H.
  - intros Hm. unfold create_task in E. rewrite Hm in E.
    injection E as _ <-. reflexivity.
Qed.

Lemma get_project_issues_world L rt j n (l : L) (w : World) :
  exists r w1,
    get_project_issues rt j n l w = (r, l, w1)
    /\ llm_log w1 = llm_log w
    /\ (mock_mode j = true -> net_log w1 = net_log w).
Proof.
  destruct (keeps_run L _ (get_project_issues rt j n) l w
              (keeps_get_project_issues L rt j n)) as (r & w1 & E).
  exists r, w1. split; [exact E|]. split.
  - pose proof (kf_get_project_issues_llm L rt j n l w) as H.
    rewrite E in H. exact H.
  - intros Hm. unfold get_project_issues in E. rewrite Hm in E.
    injection E as _ <-. reflexivity.
Qed.

Lemma create_subtasks_world rt jira description subtasks :
  forall i l w,
    let w' := snd (create_subtasks rt jira description i subtasks l w) in
    llm_log w' = llm_log w
    /\ (mock_mode jira = true -> net_log w' = net_log w).
Proof.
  induction subtasks as [|subtask rest IH]; intros i l w; cbn zeta.
  - split; reflexivity.
  - cbn [create_subtasks]. unfold bind.
    match goal with
    | |- context [create_task ?rt ?j ?s ?d ?t l w] =>
      destruct (create_task_world Locals rt j s d t l w)
        as (r & w1 & E & Hl & Hn); rewrite E
    end.
    destruct r as [issue|e]; [|cbn [snd]; auto].
    unfold append_jira_issue. run_handler.
    destruct (IH (S i)
                (mkLocals (reasoning l) (jira_issues l ++ [PDict issue])) w1)
      as [IH1 IH2].
    split; [rewrite IH1; exact Hl|].
    intros Hm. rewrite (IH2 Hm). exact (Hn Hm).
Qed.

(** A call of the LLM gateway in a run is replaced by its outcome, with
    what it did to the world. *)
Ltac run_chat_world H r w E Hl Hn :=
  match type of H with
  | context [chat ?rt ?llm ?p ?l0 ?w0] =>
    destruct (chat_world Locals rt llm p l0 w0)
      as (r & w & E & Hl & _ & Hn);
      rewrite E in H; cbn [llm_log net_log clock] in Hl, Hn
  end.

Ltac world_done H Hl Hn :=
  split_run H;
  (injection H as _ _ <-; cbn [llm_log net_log];
   (split; [exact Hl | exact Hn])).

Lemma plan_world rt llm description l w :
  let w' := snd (plan rt llm description l w) in
  llm_log w' = llm_log w ++ [plan_prompt description]
  /\ (not_groq llm = true -> net_log w' = net_log w).
Proof.
  cbn zeta. destruct (plan rt llm description l w) as [[r l'] w'] eqn:H.
  cbn [snd]. unfold plan in H. run_handler_in H.
  run_chat_world H r1 w1 E Hl Hn.
  destruct r1 as [v|e];
    [destruct v;
     cbn [method_split is_exception attribute_error exn_class] in H|];
    world_done H Hl Hn.
Qed.

Lemma analyze_risks_world rt llm feature l w :
  let w' := snd (analyze_risks rt llm feature l w) in
  llm_log w' = llm_log w ++ [risks_prompt feature]
  /\ (not_groq llm = true -> net_log w' = net_log w).
Proof.
  cbn zeta. destruct (analyze_risks rt llm feature l w) as [[r l'] w'] eqn:H.
  cbn [snd]. unfold analyze_risks in H. run_handler_in H.
  run_chat_world H r1 w1 E Hl Hn.
  destruct r1 as [v|e];
    [destruct v;
     cbn [method_split py_len is_exception attribute_error type_error
          exn_class] in H|];
    world_done H Hl Hn.
Qed.

Lemma analyze_progress_world rt llm commits l w :
  let w' := snd (analyze_progress rt llm commits l w) in
  llm_log w' = llm_log w ++ [progress_prompt commits]
  /\ (not_groq llm = true -> net_log w' = net_log w).
Proof.
  cbn zeta. destruct (analyze_progress rt llm commits l w)
    as [[r l'] w'] eqn:H.
  cbn [snd]. unfold analyze_progress in H. run_handler_in H.
  run_chat_world H r1 w1 E Hl Hn.
  destruct r1 as [v|e];
    [destruct v; cbn [py_len is_exception type_error exn_class] in H|];
    world_done H Hl Hn.
Qed.

Lemma daily_digest_world rt llm date l w :
  let w' := snd (daily_digest rt llm date l w) in
  llm_log w' = llm_log w ++ [digest_prompt (effective_date rt date w)]
  /\ (not_groq llm = true -> net_log w' = net_log w).
Proof.
  cbn zeta. destruct (daily_digest rt llm date l w) as [[r l'] w'] eqn:H.
  cbn [snd]. unfold daily_digest in H.
  destruct date as [[|c d]|]; cbn [truthy_opt truthy_str negb] in H;
    run_handler_in H; cbn [opt_str py_str effective_date] in *;
    run_chat_world H r1 w1 E Hl Hn;
    (destruct r1 as [v|e];
     [destruct v; cbn [py_len is_exception type_error exn_class] in H|]);
    world_done H Hl Hn.
Qed.

Lemma analyze_image_world rt llm u b c l w :
  let w' := snd (analyze_image rt llm u b c l w) in
  llm_log w'
  = llm_log w ++ (if negb (truthy_opt u) && negb (truthy_opt b) then []
                  else [image_prompt rt c])
  /\ (not_groq llm = true -> net_log w' = net_log w).
Proof.
  cbn zeta. destruct (analyze_image rt llm u b c l w) as [[r l'] w'] eqn:H.
  cbn [snd]. unfold analyze_image in H.
  destruct (negb (truthy_opt u) && negb (truthy_opt b)); run_handler_in H.
  - injection H as _ _ <-. cbn [llm_log net_log]. rewrite app_nil_r. auto.
  - run_chat_world H r1 w1 E Hl Hn.
    destruct r1 as [v|e]; [destruct v; cbn [py_len type_error] in H|];
      world_done H Hl Hn.
Qed.

Lemma jira_velocity_world rt jira key l w :
  let w' := snd (jira_velocity rt jira key l w) in
  llm_log w' = llm_log w
  /\ (mock_mode jira = true -> net_log w' = net_log w).
Proof.
  cbn zeta. destruct (jira_velocity rt jira key l w) as [[r l'] w'] eqn:H.
  cbn [snd]. unfold jira_velocity in H. run_handler_in H.
  match type of H with
  | context [get_project_issues ?rt ?j ?n ?l0 ?w0] =>
    destruct (get_project_issues_world Locals rt j n l0 w0)
      as (r1 & w1 & E & Hl & Hn); rewrite E in H;
      cbn [llm_log net_log clock] in Hl, Hn
  end.
  destruct r1 as [issues|e]; [|world_done H Hl Hn].
  destruct (py_len issues) as [n|e]; [|world_done H Hl Hn].
  destruct (n =? 0)%nat; [world_done H Hl Hn|].
  match type of H with
  | context [count_statuses ?i ?c ?l0 ?w0] =>
    pose proof (kf_count_statuses _ llm_log i c l0 w0) as Hl2;
      pose proof (kf_count_statuses _ net_log i c l0 w0) as Hn2;
      destruct (count_statuses i c l0 w0) as [[r2 l2] w2];
      cbn [snd llm_log net_log] in Hl2, Hn2
  end.
  rewrite <- Hl2 in Hl. rewrite <- Hn2 in Hn.
  destruct r2 as [counts|e]; [|world_done H Hl Hn].
  destruct (sum_done rt counts); world_done H Hl Hn.
Qed.

Lemma plan_with_jira_world rt llm jira description key l w :
  let w' := snd (plan_with_jira rt llm jira description key l w) in
  llm_log w' = llm_log w ++ [plan_prompt description]
  /\ (not_groq llm = true -> mock_mode jira = true ->
      net_log w' = net_log w).
Proof.
  cbn zeta.
  destruct (plan_with_jira rt llm jira description key l w)
    as [[r l'] w'] eqn:H.
  cbn [snd]. unfold plan_with_jira in H. run_handler_in H.
  match type of H with
  | context [plan ?rt ?llm ?d ?l0 ?w0] =>
    destruct (plan_world rt llm d l0 w0) as [Hl Hn];
      destruct (plan rt llm d l0 w0) as [[rp lp] wp] eqn:Ep;
      cbn [snd llm_log net_log] in Hl, Hn
  end.
  destruct rp as [pr|e].
  2:{ injection H as _ _ <-. auto. }
  destruct (dict_mem (lit "error") pr
            && negb (dict_mem (lit "fallback_subtasks") pr));
    cbv beta iota in H; cbn [reasoning jira_issues clock net_log llm_log] in H.
  { injection H as _ _ <-. auto. }
  match type of H with
  | context [create_task ?rt ?j ?s ?d ?t ?l0 ?w0] =>
    destruct (create_task_world Locals rt j s d t l0 w0)
      as (r1 & w1 & E1 & Hl1 & Hn1); rewrite E1 in H;
      cbn [llm_log net_log] in Hl1, Hn1
  end.
  destruct r1 as [epic|e]; cbn [reasoning jira_issues] in H.
  - match type of H with
    | context [create_subtasks ?rt ?j ?d ?i ?st ?l0 ?w0] =>
      destruct (create_subtasks_world rt j d st i l0 w0) as [Hl2 Hn2];
        destruct (create_subtasks rt j d i st l0 w0) as [[r2 l2] w2];
        cbn [snd llm_log net_log] in Hl2, Hn2
    end.
    split_run H;
      (injection H as _ _ <-; cbn [llm_log net_log];
       (split;
        [ congruence
        | intros Hg Hm; pose proof (Hn Hg); pose proof (Hn1 Hm);
          pose proof (Hn2 Hm); congruence ])).
  - split_run H;
      (injection H as _ _ <-; cbn [llm_log net_log];
       (split;
        [ congruence
        | intros Hg Hm; pose proof (Hn Hg); pose proof (Hn1 Hm);
          congruence ])).
Qed.


(** X18: with a provider other than groq and the tracker in mock mode, no
    invocation of a handler sends a request. *)
Theorem offline_no_request (rt : Runtime) (i : invocation) (l : Locals)
  (w : World) :
  offline i = true ->
  net_log (snd (invoke rt i l w)) = net_log w.
Proof.
  destruct i; cbn [invoke offline]; intros H.
  - apply plan_world. exact H.
  - apply andb_true_iff in H as [H1 H2].
    apply plan_with_jira_world; assumption.
  - apply analyze_risks_world. exact H.
  - apply daily_digest_world. exact H.
  - apply analyze_image_world. exact H.
  - apply analyze_progress_world. exact H.
  - apply jira_velocity_world. exact H.
Qed.

Lemma offline_no_request_witness :
  offline (PlanWithJira stub_client mock_jira (lit "Ship it") None) = true
  /\ net_log (snd (invoke (sample_rt sample_ok PNone)
                     (PlanWithJira stub_client mock_jira (lit "Ship it") None)
                     no_locals world0))
     = net_log world0.
Proof.
  split; [reflexivity|].
  apply (offline_no_request (sample_rt sample_ok PNone)
           (PlanWithJira stub_client mock_jira (lit "Ship it") None)
           no_locals world0).
  reflexivity.
Defined.

(** ** What the handlers raise *)











(** ** The risk handler, further *)


(** ** The digest handler, further *)

(** X21: the [date] of the digest is the date given, or the current UTC
    date when none or an empty one is given; the first step records it, and
    its [auto_date] is false in every case. *)
Theorem daily_digest_date (rt : Runtime) (llm : LLMClient)
  (date : option pystr) (l : Locals) (w : World) (r : result) (l' : Locals)
  (w' : World) :
  daily_digest rt llm date l w = (Ok r, l', w') ->
  dict_get (lit "date") r = Some (vstr (effective_date rt date w))
  /\ exists s rest,
       reasoning_of r = s :: rest
       /\ input_data s
          = Some [ (lit "date", PStr (effective_date rt date w));
                   (lit "auto_date", PBool false) ].
Proof.
  intros H. unfold daily_digest in H.
  destruct date as [[|c d]|]; cbn [truthy_opt truthy_str negb] in H;
    run_handler_in H; cbn [opt_str py_str is_none effective_date] in *;
    run_chat H r1 w1 E;
    (destruct r1 as [v|e];
     [destruct v; cbn [py_len is_exception type_error exn_class] in H|]);
    split_run H; try discriminate;
    (injection H as <- _ _; (split; [reflexivity|]);
     do 2 eexists; split; reflexivity).
Qed.

Lemma daily_digest_date_witness :
  exists r l' w',
    daily_digest (sample_rt sample_ok PNone) stub_client
      (Some (lit "2023-01-31")) no_locals world0 = (Ok r, l', w')
    /\ dict_get (lit "date") r = Some (vstr (lit "2023-01-31")).
Proof.
  do 3 eexists. split.
  - cbv. reflexivity.
  - eapply (daily_digest_date (sample_rt sample_ok PNone) stub_client
              (Some (lit "2023-01-31")) no_locals world0).
    cbv. reflexivity.
Defined.

(** ** The velocity handler *)

Lemma counts_get_nonneg k counts :
  all_positive counts -> (0 <= counts_get k counts 0)%Z.
Proof.
  induction counts as [|[k' v] r IH]; intros Hp; simpl; [lia|].
  destruct (key_eqb k k').
  - specialize (Hp (k', v) (or_introl eq_refl)). simpl in Hp. lia.
  - apply IH. intros kv Hkv. apply Hp. now right.
Qed.

Lemma counts_step k counts :
  total_count (counts_set k (counts_get k counts 0 + 1) counts)
  = (total_count counts + 1)%Z
  /\ (all_positive counts ->
      all_positive (counts_set k (counts_get k counts 0 + 1) counts)).
Proof.
  induction counts as [|[k' v] r [IH1 IH2]]; simpl.
  - split; [reflexivity|]. intros _ kv [<- | []]. simpl. lia.
  - destruct (key_eqb k k') eqn:E; simpl.
    + split; [lia|]. intros Hp kv [<- | Hkv]; simpl.
      * specialize (Hp (k', v) (or_introl eq_refl)). simpl in Hp. lia.
      * apply Hp. now right.
    + fold (total_count r).
      fold (total_count (counts_set k (counts_get k r 0 + 1) r)).
      split; [lia|]. intros Hp kv [<- | Hkv].
      * apply (Hp (k', v)). now left.
      * apply IH2; [|exact Hkv]. intros kv' Hkv'. apply Hp. now right.
Qed.

(** The loop counts every issue once. *)
Lemma count_statuses_total issues :
  forall counts l w counts' l' w',
    count_statuses issues counts l w = (Ok counts', l', w') ->
    total_count counts' = (total_count counts + Z.of_nat (length issues))%Z
    /\ (all_positive counts -> all_positive counts').
Proof.
  induction issues as [|issue rest IH]; intros counts l w counts' l' w' H.
  - injection H as <- _ _. simpl. split; [lia | auto].
  - cbn [count_statuses] in H.
    cbv beta iota zeta delta [bind lift raise] in H.
    destruct (subscript_str issue (lit "fields")) as [fields|];
      [|discriminate].
    destruct (subscript_str fields (lit "status")) as [st|]; [|discriminate].
    destruct (subscript_str st (lit "name")) as [status|]; [|discriminate].
    destruct (is_hashable status); [|discriminate].
    apply IH in H as [H1 H2].
    destruct (counts_step status counts) as [S1 S2].
    rewrite H1, S1. cbn [length]. split; [lia | auto].
Qed.

Lemma sum_done_bounds rt counts s :
  all_positive counts -> sum_done rt counts = Ok s ->
  (0 <= s <= total_count counts)%Z.
Proof.
  revert s. induction counts as [|[k v] r IH]; intros s Hp H; simpl in *.
  - injection H as <-. lia.
  - destruct k; try discriminate.
    destruct (sum_done rt r) as [rest|]; [|discriminate].
    injection H as <-.
    assert (Hr : (0 <= rest <= total_count r)%Z).
    { apply IH; [|reflexivity]. intros kv Hkv. apply Hp. now right. }
    specialize (Hp (PStr s0, v) (or_introl eq_refl)). simpl in Hp.
    fold (total_count r).
    match goal with
    | |- context [if ?b then _ else _] => destruct b
    end; lia.
Qed.

Lemma py_len_iter v n : py_len v = Ok n -> length (py_iter v) = n.
Proof.
  destruct v; simpl; intros H; try discriminate; injection H as <-;
    rewrite ?length_map; reflexivity.
Qed.

(** X22: when [jira_velocity] reports a number of done issues, it is at
    most the total, which is the number of issues retrieved and is not zero:
    the rate that is rounded lies between 0 and 100. *)
Theorem jira_velocity_counts (rt : Runtime) (jira : JiraClient)
  (key : option pystr) (l : Locals) (w : World) (r : result) (l' : Locals)
  (w' : World) (done_issues : Z) :
  jira_velocity rt jira key l w = (Ok r, l', w') ->
  dict_get (lit "done_issues") r = Some (V (PInt done_issues)) ->
  exists total,
    dict_get (lit "total_issues") r = Some (V (PInt total))
    /\ (0 <= done_issues <= total)%Z /\ (0 < total)%Z
    /\ dict_mem (lit "error") r = false.
Proof.
  intros H Hd. unfold jira_velocity in H. run_handler_in H.
  run_issues H r1 w1 E.
  destruct r1 as [issues|e].
  2:{ split_run H; try discriminate; injection H as <- _ _;
      vm_compute in Hd; discriminate Hd. }
  destruct (py_len issues) as [n|e] eqn:Hn.
  2:{ split_run H; try discriminate; injection H as <- _ _;
      vm_compute in Hd; discriminate Hd. }
  destruct (n =? 0)%nat eqn:Hz.
  { injection H as <- _ _. vm_compute in Hd. discriminate Hd. }
  apply Nat.eqb_neq in Hz.
  match type of H with
  | context [count_statuses ?i ?c ?l0 ?w0] =>
    destruct (count_statuses i c l0 w0) as [[r2 l2] w2] eqn:Hc
  end.
  destruct r2 as [counts|e].
  2:{ split_run H; try discriminate; injection H as <- _ _;
      vm_compute in Hd; discriminate Hd. }
  apply count_statuses_total in Hc as [Ht Hp].
  rewrite (py_len_iter _ _ Hn) in Ht. cbn [total_count fold_right] in Ht.
  destruct (sum_done rt counts) as [dn|e] eqn:Hs.
  2:{ split_run H; try discriminate; injection H as <- _ _;
      vm_compute in Hd; discriminate Hd. }
  apply sum_done_bounds in Hs; [|apply Hp; intros kv []].
  injection H as <- _ _.
  change (Some (V (PInt dn)) = Some (V (PInt done_issues))) in Hd.
  injection Hd as <-.
  exists (Z.of_nat n). split; [reflexivity|]. split; [lia|].
  split; [lia | reflexivity].
Qed.

Lemma jira_velocity_counts_witness :
  exists r l' w',
    jira_velocity (sample_rt sample_ok PNone) mock_jira None no_locals world0
    = (Ok r, l', w')
    /\ exists total,
         dict_get (lit "total_issues") r = Some (V (PInt total))
         /\ (0 <= 1 <= total)%Z /\ (0 < total)%Z
         /\ dict_mem (lit "error") r = false.
Proof.
  do 3 eexists. split.
  - cbv. reflexivity.
  - eapply (jira_velocity_counts (sample_rt sample_ok PNone) mock_jira None
              no_locals world0).
    + cbv. reflexivity.
    + vm_compute. reflexivity.
Defined.

(** X23: when the tracker cannot be reached, [jira_velocity] reports no
    error: [get_project_issues] has turned the failure into an empty list,
    and the result says "no_data", with no issue and a rate of zero. *)
Theorem jira_velocity_outage (rt : Runtime) (jira : JiraClient)
  (key : option pystr) (e t : pystr) (x : exn) (l : Locals) (w : World) :
  mock_mode jira = false -> email jira = Some e -> token jira = Some t ->
  rt_http rt (net_log w) (search_request jira 50 (e, t)) = Raise x ->
  is_exception x = true ->
  exists r l' w',
    jira_velocity rt jira key l w = (Ok r, l', w')
    /\ dict_get (lit "velocity_status") r = Some (vstr (lit "no_data"))
    /\ dict_get (lit "total_issues") r = Some (V (PInt 0))
    /\ dict_get (lit "jira_mode") r = Some (vstr (lit "real"))
    /\ dict_mem (lit "error") r = false
    /\ step_numbers r = [1; 2; 3]%Z.
Proof.
  intros Hm He Ht Hr Hx. unfold search_request in Hr.
  unfold jira_velocity. run_handler.
  unfold get_project_issues, basic_auth. rewrite Hm, He, Ht. run_handler.
  unfold http_send. cbn [net_log]. rewrite Hr. cbv beta iota. rewrite Hx.
  cbn [py_len length Nat.eqb]. run_handler.
  unfold jira_mode_of. rewrite Hm.
  do 3 eexists. split; [reflexivity|]. repeat split.
Qed.

Lemma jira_velocity_outage_witness :
  exists r l' w',
    jira_velocity (sample_rt (Raise connect_error) PNone) real_jira None
      no_locals world0 = (Ok r, l', w')
    /\ dict_get (lit "velocity_status") r = Some (vstr (lit "no_data"))
    /\ dict_get (lit "total_issues") r = Some (V (PInt 0))
    /\ dict_get (lit "jira_mode") r = Some (vstr (lit "real"))
    /\ dict_mem (lit "error") r = false
    /\ step_numbers r = [1; 2; 3]%Z.
Proof.
  apply (jira_velocity_outage (sample_rt (Raise connect_error) PNone)
           real_jira None (lit "dev@acme.io") (lit "token") connect_error
           no_locals world0); vm_compute; reflexivity.
Defined.

Lemma mock_sum_done rt :
  (forall c, (c < 128)%N -> rt_to_lower_full rt c = [ascii_lower c]) ->
  sum_done rt [ (PStr (lit "Done"), 1%Z); (PStr (lit "In Progress"), 1%Z);
                (PStr (lit "To Do"), 1%Z) ] = Ok 1%Z.
Proof.
  intros Ht. cbn [sum_done].
  rewrite !(str_lower_ascii rt _ Ht) by (vm_compute; reflexivity).
  vm_compute. reflexivity.
Qed.

(** X24: in mock mode [jira_velocity] reports the three canned issues: three
    in total, one done, one issue under each of the statuses Done, In
    Progress and To Do, and a rate that is [round] of a third of a hundred
    to one digit. *)
Theorem jira_velocity_mock (rt : Runtime) (jira : JiraClient)
  (key : option pystr) (l : Locals) (w : World) :
  (forall c, (c < 128)%N -> rt_to_lower_full rt c = [ascii_lower c]) ->
  mock_mode jira = true ->
  exists r l' w',
    jira_velocity rt jira key l w = (Ok r, l', w')
    /\ dict_get (lit "total_issues") r = Some (V (PInt 3))
    /\ dict_get (lit "done_issues") r = Some (V (PInt 1))
    /\ dict_get (lit "status_breakdown") r
       = Some (V (PDict [ (lit "Done", PInt 1); (lit "In Progress", PInt 1);
                          (lit "To Do", PInt 1) ]))
    /\ dict_get (lit "completion_rate") r
       = Some (V (PFloat (rt_round rt
                            (PrimFloat.mul
                               (PrimFloat.div (float_of_Z 1) (float_of_Z 3))
                               100%float) 1)))
    /\ dict_get (lit "jira_mode") r = Some (vstr (lit "mock"))
    /\ step_numbers r = [1; 2; 3]%Z
    /\ net_log w' = net_log w.
Proof.
  intros Ht Hm. unfold jira_velocity. run_handler.
  unfold get_project_issues. rewrite Hm.
  cbn [ret py_len length Nat.eqb py_iter].
  match goal with
  | |- context [count_statuses ?i ?c ?l0 ?w0] =>
    change (count_statuses i c l0 w0)
      with (@Ok (list (pyval * Z))
              [ (PStr (lit "Done"), 1%Z); (PStr (lit "In Progress"), 1%Z);
                (PStr (lit "To Do"), 1%Z) ], l0, w0)
  end.
  cbv beta iota. rewrite (mock_sum_done rt Ht). run_handler.
  unfold jira_mode_of. rewrite Hm.
  do 3 eexists. split; [reflexivity|]. repeat split.
Qed.

Lemma jira_velocity_mock_witness :
  exists r l' w',
    jira_velocity (sample_rt sample_ok PNone) mock_jira None no_locals world0
    = (Ok r, l', w')
    /\ dict_get (lit "total_issues") r = Some (V (PInt 3))
    /\ dict_get (lit "done_issues") r = Some (V (PInt 1)).
Proof.
  destruct (jira_velocity_mock (sample_rt sample_ok PNone) mock_jira None
              no_locals world0) as (r & l' & w' & H & H1 & H2 & _).
  - intros c _. reflexivity.
  - reflexivity.
  - exists r, l', w'. auto.
Defined.

(** ** The composite handler in mock mode *)

Lemma create_task_mock_eq L rt j s d t (l : L) (w : World) :
  mock_mode j = true ->
  create_task rt j s d t l w = (Ok (mock_record rt j s), l, w).
Proof. intros Hm. unfold create_task. rewrite Hm. reflexivity. Qed.

Lemma create_subtasks_mock rt j description subtasks :
  mock_mode j = true ->
  forall i l w,
    create_subtasks rt j description i subtasks l w
    = (Ok tt,
       mkLocals (reasoning l)
         (jira_issues l ++ subtask_records rt j i subtasks), w).
Proof.
  intros Hm. induction subtasks as [|subtask rest IH]; intros i l w.
  - cbn. rewrite app_nil_r. destruct l. reflexivity.
  - cbn [create_subtasks subtask_records]. unfold bind at 1.
    rewrite (create_task_mock_eq _ rt j _ _ _ l w Hm).
    unfold bind at 1, append_jira_issue at 1. run_handler.
    rewrite IH. cbn [reasoning jira_issues]. now rewrite <- app_assoc.
Qed.

Lemma subtask_records_length rt j subtasks :
  forall i, length (subtask_records rt j i subtasks) = length subtasks.
Proof.
  induction subtasks as [|s r IH]; intros i; simpl; [reflexivity|].
  now rewrite IH.
Qed.

(** X25: with the tracker in mock mode, [plan_with_jira] returns one record
    for the epic and one for each subtask of its result, in order and
    numbered from 1, all of them mock records; the branch of the failed
    tracker is not taken: the steps of the handler end with 2, 3, 4. *)
Theorem plan_with_jira_mock (rt : Runtime) (llm : LLMClient)
  (jira : JiraClient) (description : pystr) (key : option pystr)
  (l : Locals) (w : World) (r : result) (l' : Locals) (w' : World) :
  mock_mode jira = true ->
  plan_with_jira rt llm jira description key l w = (Ok r, l', w') ->
  exists issues inner,
    dict_get (lit "jira_issues") r = Some (V (PList issues))
    /\ issues
       = PDict (mock_record rt jira (lit "[Epic] " ++ description))
           :: subtask_records rt jira 1 (subtasks_of r)
    /\ length issues = S (length (subtasks_of r))
    /\ dict_get (lit "jira_mode") r = Some (vstr (lit "mock"))
    /\ step_numbers r = (1 :: inner ++ [2; 3; 4])%Z.
Proof.
  intros Hm H. unfold plan_with_jira in H. run_handler_in H.
  match type of H with
  | context [plan ?rt ?llm ?d ?l0 ?w0] =>
    destruct (plan rt llm d l0 w0) as [[rp lp] wp] eqn:Ep
  end.
  destruct rp as [pr|e]; [|discriminate].
  apply plan_shape in Ep as [steps [[Hn [s ->]] | [Hn [m ->]]]];
    eval_lookups H; cbn [andb negb] in H; cbv beta iota in H;
    cbn [reasoning jira_issues clock net_log llm_log] in H;
    rewrite create_task_mock_eq in H by exact Hm;
    cbn [reasoning jira_issues] in H;
    rewrite create_subtasks_mock in H by exact Hm;
    cbn [reasoning jira_issues] in H; rewrite Hm in H;
    injection H as <- _ _;
    eexists; exists (map step_number steps);
    (split; [reflexivity|]); (split; [reflexivity|]);
    (split; [match goal with
             | |- _ = S (length ?y) =>
               exact (f_equal S (subtask_records_length rt jira y 1))
             end|]);
    (split; [reflexivity|]);
    unfold step_numbers;
    match goal with
    | |- context [reasoning_of ?d] =>
      match d with
      | context [Steps ?t] => change (reasoning_of d) with t
      end
    end;
    cbn [map]; rewrite !map_app; cbn [map step_number app];
    rewrite <- !app_assoc; reflexivity.
Qed.

Lemma plan_with_jira_mock_witness :
  exists r l' w',
    plan_with_jira (sample_rt sample_ok PNone) stub_client mock_jira
      (lit "Ship it") None no_locals world0 = (Ok r, l', w')
    /\ exists issues inner,
         dict_get (lit "jira_issues") r = Some (V (PList issues))
         /\ issues
            = PDict (mock_record (sample_rt sample_ok PNone) mock_jira
                       (lit "[Epic] " ++ lit "Ship it"))
                :: subtask_records (sample_rt sample_ok PNone) mock_jira 1
                     (subtasks_of r)
         /\ length issues = S (length (subtasks_of r))
         /\ dict_get (lit "jira_mode") r = Some (vstr (lit "mock"))
         /\ step_numbers r = (1 :: inner ++ [2; 3; 4])%Z.
Proof.
  do 3 eexists. split.
  - cbv. reflexivity.
  - eapply (plan_with_jira_mock (sample_rt sample_ok PNone) stub_client
              mock_jira (lit "Ship it") None no_locals world0).
    + reflexivity.
    + cbv. reflexivity.
Defined.
